(** * Droppable: a file-drop target over a host element

    A shallow embedding of [src/droppable.ts].  The class [Droppable] binds
    four listeners to a host element and one to a hidden file input it
    creates, turns every drop or selection into an array of files, keeps the
    latest array and emits it on a Noel event.

    The DOM and Noel are collaborators: an element is a record of the parts
    the class touches (class list, attributes, listener list), an event is a
    record of the properties the class reads or sets, and a Noel event is the
    trace of the payloads passed to [emit] together with its listeners,
    which [emit] calls and which may throw. *)

From stdpp Require Import base option list strings gmap.

(** ** JavaScript values the class handles *)

(** A [File] is opaque to the class; the fields only tell files apart. *)
Record File := mkFile {
  file_name : string;
  file_size : nat;
}.

(** A [FileList] is an array-like, ordered collection of files. *)
Definition FileList := list File.

Inductive JsError :=
| Error (message : string)
| TypeError (message : string).

(** How a call ends: normally with a value, or by throwing. *)
Inductive Completion (A : Type) :=
| Normal (a : A)
| Throw (err : JsError).
Arguments Normal {A} a.
Arguments Throw {A} err.


(** [Array.from(items)]: an array with the elements of an array-like in
    their order; [undefined] and [null] (here [None]) are not iterable. *)
Definition Array_from (items : option FileList) : Completion (list File) :=
  match items with
  | Some l => Normal l
  | None => Throw (TypeError "undefined is not iterable")
  end.

(** [b.toString()] on a boolean. *)
Definition Boolean_toString (b : bool) : string :=
  if b then "true" else "false".

(** ** Function objects used as listeners

    The class hands its own methods to the DOM.  [getElementEventsDictionary]
    reads them off [this] unbound ([PrototypeMethod]);
    [eventListener.bind(this)] makes a new function object every time it is
    called ([BoundFunction], told apart by the allocation number [id]). *)
Inductive MethodName :=
| m_onElementDragOver
| m_onElementDragLeave
| m_onElementDrop
| m_onElementClick
| m_onVirtualInputElementChange.

Inductive EventListener :=
| PrototypeMethod (m : MethodName)
| BoundFunction (id : nat) (m : MethodName).

Global Instance MethodName_eq_dec : EqDecision MethodName.
Proof. solve_decision. Defined.

Global Instance EventListener_eq_dec : EqDecision EventListener.
Proof. solve_decision. Defined.

(** ** The DOM as the class sees it *)

Record HTMLElement := mkElement {
  classList : list string;
  attributes : gmap string string;
  style_display : string;
  (* event listener list: (event type, callback), in registration order *)
  listeners : list (string * EventListener);
  (* number of times [click()] was called on the element *)
  clicks : nat;
}.

(** [document.createElement(tag)]: a fresh element with nothing on it. *)
Definition document_createElement (tag : string) : HTMLElement :=
  {| classList := []; attributes := ∅; style_display := "";
     listeners := []; clicks := 0 |}.

Definition setAttribute (name value : string) (el : HTMLElement) : HTMLElement :=
  {| classList := classList el;
     attributes := <[name := value]> (attributes el);
     style_display := style_display el;
     listeners := listeners el;
     clicks := clicks el |}.

Definition getAttribute (name : string) (el : HTMLElement) : option string :=
  attributes el !! name.

Definition set_style_display (value : string) (el : HTMLElement) : HTMLElement :=
  {| classList := classList el;
     attributes := attributes el;
     style_display := value;
     listeners := listeners el;
     clicks := clicks el |}.

Definition set_classList (cl : list string) (el : HTMLElement) : HTMLElement :=
  {| classList := cl;
     attributes := attributes el;
     style_display := style_display el;
     listeners := listeners el;
     clicks := clicks el |}.

Definition set_listeners (ls : list (string * EventListener)) (el : HTMLElement)
  : HTMLElement :=
  {| classList := classList el;
     attributes := attributes el;
     style_display := style_display el;
     listeners := ls;
     clicks := clicks el |}.

(** [classList.add(token)]: a token list is an ordered set. *)
Definition classList_add (token : string) (el : HTMLElement) : HTMLElement :=
  set_classList
    (if decide (token ∈ classList el) then classList el
     else classList el ++ [token]) el.

(** [classList.remove(token)]. *)
Definition classList_remove (token : string) (el : HTMLElement) : HTMLElement :=
  set_classList (filter (λ t, t ≠ token) (classList el)) el.

(** [addEventListener(type, callback)]: appended unless the same type and
    callback are already in the list. *)
Definition addEventListener (type : string) (callback : EventListener)
    (el : HTMLElement) : HTMLElement :=
  set_listeners
    (if decide ((type, callback) ∈ listeners el) then listeners el
     else listeners el ++ [(type, callback)]) el.

(** [removeEventListener(type, callback)]: removes the entry with this type
    and this very callback; does nothing when there is none. *)
Definition removeEventListener (type : string) (callback : EventListener)
    (el : HTMLElement) : HTMLElement :=
  set_listeners (filter (λ entry, entry ≠ (type, callback)) (listeners el)) el.

(** [el.click()]: for the file input, asks the browser for its file chooser. *)
Definition click (el : HTMLElement) : HTMLElement :=
  {| classList := classList el;
     attributes := attributes el;
     style_display := style_display el;
     listeners := listeners el;
     clicks := S (clicks el) |}.

(** ** Events

    [dataTransfer] is the drag payload of a drag event ([null] or missing
    otherwise).  The handlers take the event as [{ [key: string]: any }]:
    whatever is truthy under [dataTransfer] counts as a payload, with or
    without [files].  [target] is any event target: only a file input has
    [files]. *)
Record DataTransfer := mkDataTransfer {
  dt_files : option FileList;
}.

Record EventTarget := mkTarget {
  target_files : option FileList;
}.

Record Event := mkEvent {
  type : string;
  dataTransfer : option DataTransfer;
  target : option EventTarget;
  defaultPrevented : bool;
  propagationStopped : bool;
}.

Definition preventDefault (e : Event) : Event :=
  {| type := type e; dataTransfer := dataTransfer e; target := target e;
     defaultPrevented := true; propagationStopped := propagationStopped e |}.

Definition stopPropagation (e : Event) : Event :=
  {| type := type e; dataTransfer := dataTransfer e; target := target e;
     defaultPrevented := defaultPrevented e; propagationStopped := true |}.

(** ** Noel

    The event emitter library is used through [new Noel(config)],
    [getEvent], [on] and [emit].  An event keeps the payloads [emit] was
    called with, in call order, and who listens.  [emit] calls the listeners
    itself, one after the other, and lets an exception of a listener
    through to its caller. *)

(** A listener given to [on]: a function object, told apart by
    [listener_id], that is called with the payload and may throw. *)
Record NoelEventListener := mkListener {
  listener_id : nat;
  listener_call : list File → Completion unit;
}.

Record NoelConfig := mkNoelConfig {
  replay : bool;
  replayBufferSize : nat;
}.

Record Noel := mkNoel {
  noel_config : NoelConfig;
}.

Record NoelEvent := mkNoelEvent {
  event_name : string;
  emitted : list (list File);
  subscribers : list NoelEventListener;
}.

Definition new_Noel (config : NoelConfig) : Noel := {| noel_config := config |}.

Definition getEvent (name : string) (n : Noel) : NoelEvent :=
  {| event_name := name; emitted := []; subscribers := [] |}.

(** The listeners are called in the order they were added; the first one
    that throws ends the round. *)
Fixpoint NoelEvent_notify (payload : list File) (ls : list NoelEventListener)
  : Completion unit :=
  match ls with
  | [] => Normal ()
  | l :: rest =>
      match listener_call l payload with
      | Normal _ => NoelEvent_notify payload rest
      | Throw err => Throw err
      end
  end.

Definition NoelEvent_emit (payload : list File) (ev : NoelEvent)
  : Completion unit * NoelEvent :=
  (NoelEvent_notify payload (subscribers ev),
   {| event_name := event_name ev;
      emitted := emitted ev ++ [payload];
      subscribers := subscribers ev |}).

(** The listeners of an event are a set: a function object is in it once. *)
Definition NoelEvent_on (listener : NoelEventListener) (ev : NoelEvent) : NoelEvent :=
  {| event_name := event_name ev;
     emitted := emitted ev;
     subscribers :=
       if decide (listener_id listener ∈ listener_id <$> subscribers ev)
       then subscribers ev
       else subscribers ev ++ [listener] |}.

(** ** Configuration ([DroppableSettings])

    A JavaScript caller can leave out any field, [element] included, and can
    pass no configuration at all. *)
Module Settings.
Record t := mk {
  element : option HTMLElement;
  appendStatusClasses : option bool;
  acceptsMultipleFiles : option bool;
  isClickable : option bool;
  eventConfig : option NoelConfig;
}.

(** The object literal [{}]. *)
Definition empty : t :=
  {| element := None; appendStatusClasses := None;
     acceptsMultipleFiles := None; isClickable := None;
     eventConfig := None |}.

(** A configuration with the host element and nothing else. *)
Definition only (el : HTMLElement) : t :=
  {| element := Some el; appendStatusClasses := None;
     acceptsMultipleFiles := None; isClickable := None;
     eventConfig := None |}.
End Settings.

Definition DroppableSettings := Settings.t.

(** ** The instance

    The fields of the class, with the objects they refer to held in place:
    the host element and the hidden input are each referred to by this
    instance only.  A remover is the closure [registerElementEventsWithDictionary]
    returns, kept as the list of [(eventName, eventListener)] pairs its
    inner closures captured. *)
Definition Remover := list (string * EventListener).

Record Droppable := mkDroppable {
  dragOverClass : string;
  appendStatusClasses : bool;
  isClickable : bool;
  filesWereDroppedEvent : NoelEvent;
  element : HTMLElement;
  elementEventsRemover : Remover;
  virtualInputElement : HTMLElement;
  virtualInputElementEventsRemover : Remover;
  (* [None] while the field is still undefined *)
  latestDroppedFiles : option (list File);
  eventEmitter : Noel;
}.

(** Field assignments [this.f = v]. *)
Definition set_appendStatusClasses (v : bool) (d : Droppable) : Droppable :=
  {| dragOverClass := dragOverClass d; appendStatusClasses := v;
     isClickable := isClickable d;
     filesWereDroppedEvent := filesWereDroppedEvent d;
     element := element d; elementEventsRemover := elementEventsRemover d;
     virtualInputElement := virtualInputElement d;
     virtualInputElementEventsRemover := virtualInputElementEventsRemover d;
     latestDroppedFiles := latestDroppedFiles d;
     eventEmitter := eventEmitter d |}.

Definition set_isClickable (v : bool) (d : Droppable) : Droppable :=
  {| dragOverClass := dragOverClass d;
     appendStatusClasses := appendStatusClasses d; isClickable := v;
     filesWereDroppedEvent := filesWereDroppedEvent d;
     element := element d; elementEventsRemover := elementEventsRemover d;
     virtualInputElement := virtualInputElement d;
     virtualInputElementEventsRemover := virtualInputElementEventsRemover d;
     latestDroppedFiles := latestDroppedFiles d;
     eventEmitter := eventEmitter d |}.

Definition set_filesWereDroppedEvent (v : NoelEvent) (d : Droppable) : Droppable :=
  {| dragOverClass := dragOverClass d;
     appendStatusClasses := appendStatusClasses d;
     isClickable := isClickable d; filesWereDroppedEvent := v;
     element := element d; elementEventsRemover := elementEventsRemover d;
     virtualInputElement := virtualInputElement d;
     virtualInputElementEventsRemover := virtualInputElementEventsRemover d;
     latestDroppedFiles := latestDroppedFiles d;
     eventEmitter := eventEmitter d |}.

Definition set_element (v : HTMLElement) (d : Droppable) : Droppable :=
  {| dragOverClass := dragOverClass d;
     appendStatusClasses := appendStatusClasses d;
     isClickable := isClickable d;
     filesWereDroppedEvent := filesWereDroppedEvent d;
     element := v; elementEventsRemover := elementEventsRemover d;
     virtualInputElement := virtualInputElement d;
     virtualInputElementEventsRemover := virtualInputElementEventsRemover d;
     latestDroppedFiles := latestDroppedFiles d;
     eventEmitter := eventEmitter d |}.

Definition set_elementEventsRemover (v : Remover) (d : Droppable) : Droppable :=
  {| dragOverClass := dragOverClass d;
     appendStatusClasses := appendStatusClasses d;
     isClickable := isClickable d;
     filesWereDroppedEvent := filesWereDroppedEvent d;
     element := element d; elementEventsRemover := v;
     virtualInputElement := virtualInputElement d;
     virtualInputElementEventsRemover := virtualInputElementEventsRemover d;
     latestDroppedFiles := latestDroppedFiles d;
     eventEmitter := eventEmitter d |}.

Definition set_virtualInputElement (v : HTMLElement) (d : Droppable) : Droppable :=
  {| dragOverClass := dragOverClass d;
     appendStatusClasses := appendStatusClasses d;
     isClickable := isClickable d;
     filesWereDroppedEvent := filesWereDroppedEvent d;
     element := element d; elementEventsRemover := elementEventsRemover d;
     virtualInputElement := v;
     virtualInputElementEventsRemover := virtualInputElementEventsRemover d;
     latestDroppedFiles := latestDroppedFiles d;
     eventEmitter := eventEmitter d |}.

Definition set_virtualInputElementEventsRemover (v : Remover) (d : Droppable)
  : Droppable :=
  {| dragOverClass := dragOverClass d;
     appendStatusClasses := appendStatusClasses d;
     isClickable := isClickable d;
     filesWereDroppedEvent := filesWereDroppedEvent d;
     element := element d; elementEventsRemover := elementEventsRemover d;
     virtualInputElement := virtualInputElement d;
     virtualInputElementEventsRemover := v;
     latestDroppedFiles := latestDroppedFiles d;
     eventEmitter := eventEmitter d |}.

Definition set_latestDroppedFiles (v : option (list File)) (d : Droppable)
  : Droppable :=
  {| dragOverClass := dragOverClass d;
     appendStatusClasses := appendStatusClasses d;
     isClickable := isClickable d;
     filesWereDroppedEvent := filesWereDroppedEvent d;
     element := element d; elementEventsRemover := elementEventsRemover d;
     virtualInputElement := virtualInputElement d;
     virtualInputElementEventsRemover := virtualInputElementEventsRemover d;
     latestDroppedFiles := v;
     eventEmitter := eventEmitter d |}.

Definition set_eventEmitter (v : Noel) (d : Droppable) : Droppable :=
  {| dragOverClass := dragOverClass d;
     appendStatusClasses := appendStatusClasses d;
     isClickable := isClickable d;
     filesWereDroppedEvent := filesWereDroppedEvent d;
     element := element d; elementEventsRemover := elementEventsRemover d;
     virtualInputElement := virtualInputElement d;
     virtualInputElementEventsRemover := virtualInputElementEventsRemover d;
     latestDroppedFiles := latestDroppedFiles d;
     eventEmitter := v |}.

(** ** Public methods and helpers

    All of them but [emitFilesWereDropped] and [setLatestDrop] end normally;
    those two end the way [emit] does. *)

Definition makeVirtualInputElement : HTMLElement :=
  let input := document_createElement "input" in
  let input := setAttribute "type" "file" input in
  let input := set_style_display "none" input in
  input.

(** [onFilesDropped] adds the listener to the event.  What Noel replays to
    a new listener goes to the listener, not to the instance. *)
Definition onFilesDropped (listener : NoelEventListener) (d : Droppable)
  : Droppable :=
  set_filesWereDroppedEvent (NoelEvent_on listener (filesWereDroppedEvent d)) d.

Definition getLatestDroppedFiles (d : Droppable) : list File :=
  match latestDroppedFiles d with
  | Some files => files
  | None => []
  end.

Definition promptForFiles (d : Droppable) : Droppable :=
  set_virtualInputElement (click (virtualInputElement d)) d.

Definition setIsClickable (clickable : bool) (d : Droppable) : Droppable :=
  set_isClickable clickable d.

Definition setAcceptsMultipleFiles (acceptsMultipleFiles : bool) (d : Droppable)
  : Droppable :=
  set_virtualInputElement
    (setAttribute "multiple" (Boolean_toString acceptsMultipleFiles)
       (virtualInputElement d)) d.

Definition setAppendStatusClasses (appendStatusClasses : bool) (d : Droppable)
  : Droppable :=
  set_appendStatusClasses appendStatusClasses d.

Definition emitFilesWereDropped (files : list File) (d : Droppable)
  : Completion unit * Droppable :=
  let '(c, ev) := NoelEvent_emit files (filesWereDroppedEvent d) in
  (c, set_filesWereDroppedEvent ev d).

Definition setLatestDrop (files : list File) (d : Droppable)
  : Completion unit * Droppable :=
  let d := set_latestDroppedFiles (Some files) d in
  emitFilesWereDropped files d.

(** Calls every captured [removeEventListener(eventName, eventListener)] on
    the element the remover was made for. *)
Definition callRemover (r : Remover) (el : HTMLElement) : HTMLElement :=
  foldl (λ el entry, removeEventListener entry.1 entry.2 el) el r.

Definition cleanUp (d : Droppable) : Droppable :=
  let d := set_element (callRemover (elementEventsRemover d) (element d)) d in
  set_virtualInputElement
    (callRemover (virtualInputElementEventsRemover d) (virtualInputElement d)) d.

(** ** Listener bodies

    A listener runs on the event it is given and on [this]; both are mutable
    objects, so what it did before a [throw] stays done.  [M] is the state
    and error monad of one listener call. *)
Record Frame := mkFrame {
  event : Event;
  this : Droppable;
}.

Definition M (A : Type) : Type := Frame → Completion A * Frame.

Global Instance M_ret : MRet M := λ A a fr, (Normal a, fr).

Global Instance M_bind : MBind M := λ A B f m fr,
  match m fr with
  | (Normal a, fr') => f a fr'
  | (Throw err, fr') => (Throw err, fr')
  end.

Global Instance M_throw : MThrow JsError M := λ A err fr, (Throw err, fr).

Definition read {A} (f : Frame → A) : M A := λ fr, (Normal (f fr), fr).

Definition on_event (f : Event → Event) : M unit :=
  λ fr, (Normal (), {| event := f (event fr); this := this fr |}).

Definition on_this (f : Droppable → Droppable) : M unit :=
  λ fr, (Normal (), {| event := event fr; this := f (this fr) |}).

Definition completed {A} (c : Completion A) : M A := λ fr, (c, fr).

(** A call of a method of [this] that may throw. *)
Definition with_this {A} (f : Droppable → Completion A * Droppable) : M A :=
  λ fr, let '(c, d) := f (this fr) in (c, {| event := event fr; this := d |}).

Definition onElementDragOver : M unit :=
  on_event preventDefault ;;
  on_event stopPropagation ;;
  on_this (λ d, set_element (classList_add (dragOverClass d) (element d)) d).

Definition onElementDragLeave : M unit :=
  on_event preventDefault ;;
  on_event stopPropagation ;;
  on_this (λ d, set_element (classList_remove (dragOverClass d) (element d)) d).

Definition onElementClick : M unit :=
  read (λ fr, isClickable (this fr)) ≫= λ clickable : bool,
  if clickable then on_this promptForFiles else mret ().

Definition onDroppableElementChange : M unit :=
  read event ≫= λ e : Event,
  files ← match dataTransfer e with
          | Some dt => mret (dt_files dt)
          | None =>
              match target e with
              | Some t => mret (target_files t)
              | None => mthrow (Error "Fired event contains no files")
              end
          end;
  filesArray ← completed (Array_from files);
  with_this (setLatestDrop filesArray).

Definition onElementDrop : M unit :=
  on_event preventDefault ;;
  on_event stopPropagation ;;
  on_this (λ d, set_element (classList_remove (dragOverClass d) (element d)) d) ;;
  onDroppableElementChange.

Definition onVirtualInputElementChange : M unit :=
  onDroppableElementChange.

Definition method (m : MethodName) : M unit :=
  match m with
  | m_onElementDragOver => onElementDragOver
  | m_onElementDragLeave => onElementDragLeave
  | m_onElementDrop => onElementDrop
  | m_onElementClick => onElementClick
  | m_onVirtualInputElementChange => onVirtualInputElementChange
  end.

(** The same bodies when the DOM calls the method with [this] set to the
    element it was registered on, which has none of the instance's fields:
    [this.element] and [this.onDroppableElementChange] are undefined, and
    [this.isClickable] is falsy. *)
Definition methodOnElement (m : MethodName) : M unit :=
  match m with
  | m_onElementDragOver | m_onElementDragLeave | m_onElementDrop =>
      on_event preventDefault ;;
      on_event stopPropagation ;;
      mthrow (TypeError "this.element is undefined")
  | m_onElementClick => mret ()
  | m_onVirtualInputElementChange =>
      mthrow (TypeError "this.onDroppableElementChange is not a function")
  end.

Definition callListener (l : EventListener) : M unit :=
  match l with
  | BoundFunction _ m => method m
  | PrototypeMethod m => methodOnElement m
  end.

(** ** Registration *)

Definition getVirtualInputElementEventsDictionary : list (string * EventListener) :=
  [("change", PrototypeMethod m_onVirtualInputElementChange)].

Definition getElementEventsDictionary : list (string * EventListener) :=
  [("dragover", PrototypeMethod m_onElementDragOver);
   ("dragleave", PrototypeMethod m_onElementDragLeave);
   ("drop", PrototypeMethod m_onElementDrop);
   ("click", PrototypeMethod m_onElementClick)].

(** [eventListener.bind(this)]: function object number [fresh], which calls
    the method of [eventListener] on this instance. *)
Definition bind (eventListener : EventListener) (fresh : nat) : EventListener :=
  match eventListener with
  | PrototypeMethod m => BoundFunction fresh m
  | BoundFunction _ m => BoundFunction fresh m
  end.

(** Walks the dictionary in key order.  Returns the element with the bound
    listeners added, the remover, and the next free function number.  The
    remover's closures capture [eventListener], the dictionary's value. *)
Definition registerElementEventsWithDictionary (element : HTMLElement)
    (eventNameToEventListenerDictionary : list (string * EventListener))
    (fresh : nat) : HTMLElement * Remover * nat :=
  foldl
    (λ '((element, eventRemovers, fresh) : HTMLElement * Remover * nat)
       '((eventName, eventListener) : string * EventListener),
       (addEventListener eventName (bind eventListener fresh) element,
        eventRemovers ++ [(eventName, eventListener)],
        S fresh))
    (element, [], fresh)
    eventNameToEventListenerDictionary.

Definition registerElementEvents (d : Droppable) (fresh : nat)
  : Droppable * Remover * nat :=
  let '(el, remover, fresh) :=
    registerElementEventsWithDictionary (element d) getElementEventsDictionary fresh in
  (set_element el d, remover, fresh).

Definition registerVirtualInputElementEvents (d : Droppable) (fresh : nat)
  : Droppable * Remover * nat :=
  let '(el, remover, fresh) :=
    registerElementEventsWithDictionary (virtualInputElement d)
      getVirtualInputElementEventsDictionary fresh in
  (set_virtualInputElement el d, remover, fresh).

(** ** Construction *)

(** [this] on entry to the constructor: [dragOverClass] has its initialiser,
    every other field is still unassigned.  The constructor assigns all of
    them but [latestDroppedFiles] before it returns; until then a field
    shows a blank of its type. *)
Definition unassigned : Droppable :=
  {| dragOverClass := "dragover";
     appendStatusClasses := false;
     isClickable := false;
     filesWereDroppedEvent := {| event_name := ""; emitted := []; subscribers := [] |};
     element := document_createElement "";
     elementEventsRemover := [];
     virtualInputElement := document_createElement "";
     virtualInputElementEventsRemover := [];
     latestDroppedFiles := None;
     eventEmitter := new_Noel {| replay := false; replayBufferSize := 0 |} |}.

(** [typeof v === 'boolean' ? v : true]. *)
Definition booleanOrTrue (v : option bool) : bool :=
  match v with Some b => b | None => true end.

Definition constructor (config : option DroppableSettings) : Completion Droppable :=
  let config := default Settings.empty config in
  match Settings.element config with
  | None => Throw (Error "config.element: HTMLElement is required")
  | Some config_element =>
      let this := set_virtualInputElement makeVirtualInputElement unassigned in
      let isClickable := booleanOrTrue (Settings.isClickable config) in
      let acceptsMultipleFiles := booleanOrTrue (Settings.acceptsMultipleFiles config) in
      let appendStatusClasses := booleanOrTrue (Settings.appendStatusClasses config) in
      let this := setIsClickable isClickable this in
      let this := setAcceptsMultipleFiles acceptsMultipleFiles this in
      let this := setAppendStatusClasses appendStatusClasses this in
      let this :=
        set_eventEmitter
          (new_Noel (default {| replay := true; replayBufferSize := 1 |}
                       (Settings.eventConfig config))) this in
      let this := set_filesWereDroppedEvent (getEvent "drop" (eventEmitter this)) this in
      let this := set_element config_element this in
      let '(this, remover, fresh) := registerElementEvents this 0 in
      let this := set_elementEventsRemover remover this in
      let '(this, remover, fresh) := registerVirtualInputElementEvents this fresh in
      let this := set_virtualInputElementEventsRemover remover this in
      Normal this
  end.

(** ** Native events

    The browser delivers an event to an element by calling, in registration
    order, the listeners registered for the event's type.  An exception in a
    listener is reported to the page and the next listener still runs. *)
Inductive Receiver := HostElement | HiddenInput.

Definition receiver (on : Receiver) (d : Droppable) : HTMLElement :=
  match on with
  | HostElement => element d
  | HiddenInput => virtualInputElement d
  end.

Fixpoint invokeListeners (ls : list (string * EventListener)) (fr : Frame)
  : Frame * list JsError :=
  match ls with
  | [] => (fr, [])
  | (ty, l) :: rest =>
      if decide (ty = type (event fr)) then
        let '(c, fr) := callListener l fr in
        let '(fr, reported) := invokeListeners rest fr in
        (fr, match c with Throw err => err :: reported | Normal _ => reported end)
      else invokeListeners rest fr
  end.

Definition dispatchEvent (on : Receiver) (e : Event) (d : Droppable)
  : Frame * list JsError :=
  invokeListeners (listeners (receiver on d)) {| event := e; this := d |}.

(** ** What can happen to an instance *)
Inductive Operation :=
| call_onFilesDropped (listener : NoelEventListener)
| call_cleanUp
| call_getLatestDroppedFiles
| call_promptForFiles
| call_setIsClickable (clickable : bool)
| call_setAcceptsMultipleFiles (acceptsMultipleFiles : bool)
| call_setAppendStatusClasses (appendStatusClasses : bool)
| native (on : Receiver) (e : Event).

Definition step (d : Droppable) (op : Operation) : Droppable :=
  match op with
  | call_onFilesDropped listener => onFilesDropped listener d
  | call_cleanUp => cleanUp d
  | call_getLatestDroppedFiles => d
  | call_promptForFiles => promptForFiles d
  | call_setIsClickable b => setIsClickable b d
  | call_setAcceptsMultipleFiles b => setAcceptsMultipleFiles b d
  | call_setAppendStatusClasses b => setAppendStatusClasses b d
  | native on e => this (dispatchEvent on e d).1
  end.

Definition run (ops : list Operation) (d : Droppable) : Droppable :=
  foldl step d ops.

(** A native drop carrying the files [F], and a change of the hidden input
    after the user picked [F]. *)
Definition dropOf (F : FileList) : Event :=
  {| type := "drop"; dataTransfer := Some {| dt_files := Some F |};
     target := Some {| target_files := None |};
     defaultPrevented := false; propagationStopped := false |}.

Definition changeOf (F : FileList) : Event :=
  {| type := "change"; dataTransfer := None;
     target := Some {| target_files := Some F |};
     defaultPrevented := false; propagationStopped := false |}.

(** A host element with the given classes and no listener yet. *)
Definition hostWith (classes : list string) : HTMLElement :=
  {| classList := classes; attributes := ∅; style_display := "";
     listeners := []; clicks := 0 |}.

(** ** Where a handler looks for files *)

(** The file collection of the event's drag payload, when it has one. *)
Definition dragPayloadFiles (e : Event) : option FileList :=
  dataTransfer e ≫= dt_files.

(** The file collection of the event's target, when it has one. *)
Definition targetFiles (e : Event) : option FileList :=
  target e ≫= target_files.

(** The file collection the handler reads: the payload's when the event
    has a payload, the target's otherwise. *)
Definition chosenFiles (e : Event) : option FileList :=
  match dataTransfer e with
  | Some dt => dt_files dt
  | None => targetFiles e
  end.

(** How an [emit] of the payload ends on this instance: the way its
    listeners take it. *)
Definition notified (payload : list File) (d : Droppable) : Completion unit :=
  NoelEvent_notify payload (subscribers (filesWereDroppedEvent d)).


(** The log of the notification channel. *)
Definition notifications (d : Droppable) : list (list File) :=
  emitted (filesWereDroppedEvent d).

(** The invariant of the data model: the latest list is the payload of the
    last notification, or empty when there was none. *)
Definition latest_is_last_notification (d : Droppable) : Prop :=
  getLatestDroppedFiles d = default [] (last (notifications d)).

(** The two handlers through which files arrive. *)
Definition file_handler (h : M unit) : Prop :=
  h = onElementDrop ∨ h = onVirtualInputElementChange.

(** What [onElementDrop] does before it looks at the files. *)
Definition dropPrologue (e : Event) (d : Droppable) : Frame :=
  {| event := stopPropagation (preventDefault e);
     this := set_element (classList_remove (dragOverClass d) (element d)) d |}.

(** ** Bindings

    The listeners the constructor leaves on a host element that had none,
    and on the hidden input. *)
Definition hostBindings : list (string * EventListener) :=
  [("dragover", BoundFunction 0 m_onElementDragOver);
   ("dragleave", BoundFunction 1 m_onElementDragLeave);
   ("drop", BoundFunction 2 m_onElementDrop);
   ("click", BoundFunction 3 m_onElementClick)].

Definition inputBindings : list (string * EventListener) :=
  [("change", BoundFunction 4 m_onVirtualInputElementChange)].

Definition bindings_installed (d : Droppable) : Prop :=
  listeners (element d) = hostBindings
  ∧ listeners (virtualInputElement d) = inputBindings.

(** What the page is told after one listener call. *)
Definition reported (c : Completion unit) : list JsError :=
  match c with Throw err => [err] | Normal _ => [] end.

(** ** Registration, in closed form *)

(** The entries [registerElementEventsWithDictionary] adds for a dictionary
    when the function numbers from [fresh] on are unused: one bound function
    per key, in key order. *)
Fixpoint boundFrom (fresh : nat) (dict : list (string * EventListener))
  : list (string * EventListener) :=
  match dict with
  | [] => []
  | (eventName, eventListener) :: rest =>
      (eventName, bind eventListener fresh) :: boundFrom (S fresh) rest
  end.

(** No function object numbered [fresh] or above is in the listener list. *)
Definition fresh_for (fresh : nat) (ls : list (string * EventListener)) : Prop :=
  Forall (λ entry, match entry.2 with
                   | BoundFunction id _ => id < fresh
                   | PrototypeMethod _ => True
                   end) ls.

(** What decides which listeners run and what [cleanUp] removes: the two
    listener lists and the two removers. *)
Definition wiring (d : Droppable)
  : list (string * EventListener) * list (string * EventListener)
    * Remover * Remover :=
  (listeners (element d), listeners (virtualInputElement d),
   elementEventsRemover d, virtualInputElementEventsRemover d).

(** The wiring the constructor leaves on a host that had no listener. *)
Definition constructedWiring
  : list (string * EventListener) * list (string * EventListener)
    * Remover * Remover :=
  (hostBindings, inputBindings,
   getElementEventsDictionary, getVirtualInputElementEventsDictionary).

(** ** Deliveries

    A file list reaches the instance by a drop on the host or by a selection
    in the hidden input. *)
Inductive Delivery :=
| Dropped (F : FileList)
| Picked (F : FileList).

Definition delivered (x : Delivery) : FileList :=
  match x with Dropped F => F | Picked F => F end.

Definition deliver (x : Delivery) : Operation :=
  match x with
  | Dropped F => native HostElement (dropOf F)
  | Picked F => native HiddenInput (changeOf F)
  end.

(** The three listeners of the drag gestures. *)
Definition drag_method (m : MethodName) : bool :=
  match m with
  | m_onElementDragOver | m_onElementDragLeave | m_onElementDrop => true
  | m_onElementClick | m_onVirtualInputElementChange => false
  end.

(** A host that already carries listeners of other code. *)
Definition busyHost : HTMLElement :=
  {| classList := ["zone"; "dragover"]; attributes := {[ "id" := "target" ]};
     style_display := "block";
     listeners := [("click", PrototypeMethod m_onElementClick);
                   ("drop", BoundFunction 7 m_onElementDrop)];
     clicks := 2 |}.

(** ** Sample data *)

Definition notes_txt : File := {| file_name := "notes.txt"; file_size := 12 |}.
Definition photo_png : File := {| file_name := "photo.png"; file_size := 2048 |}.

(** Three files, one of them twice. *)
Definition sampleFiles : FileList := [notes_txt; photo_png; notes_txt].

Definition sampleHost : HTMLElement := hostWith ["zone"].

(** The instance [new Droppable({ element })] makes for the sample host. *)
Definition sampleInstance : Droppable :=
  match constructor (Some (Settings.only sampleHost)) with
  | Normal d => d
  | Throw _ => unassigned
  end.

(** [{ element, acceptsMultipleFiles: false }] and its instance. *)
Definition singleFileSettings : DroppableSettings :=
  {| Settings.element := Some sampleHost;
     Settings.appendStatusClasses := None;
     Settings.acceptsMultipleFiles := Some false;
     Settings.isClickable := None;
     Settings.eventConfig := None |}.

Definition singleFileInstance : Droppable :=
  match constructor (Some singleFileSettings) with
  | Normal d => d
  | Throw _ => unassigned
  end.

(** The sample instance after a first delivery. *)
Definition loadedInstance : Droppable :=
  (setLatestDrop sampleFiles sampleInstance).2.




(** A drop whose payload object has no [files], on a target that has. *)
Definition payloadWithoutFiles (F : FileList) : Event :=
  {| type := "drop"; dataTransfer := Some {| dt_files := None |};
     target := Some {| target_files := Some F |};
     defaultPrevented := false; propagationStopped := false |}.

(** An event with neither a drag payload nor a target. *)
Definition bareEvent (ty : string) : Event :=
  {| type := ty; dataTransfer := None; target := None;
     defaultPrevented := false; propagationStopped := false |}.

(** * Properties *)

(** ** Processing a file list *)

Lemma setLatestDrop_latest files d :
  getLatestDroppedFiles (setLatestDrop files d).2 = files.
Proof. reflexivity. Qed.

Lemma setLatestDrop_notifications files d :
  notifications (setLatestDrop files d).2 = notifications d ++ [files].
Proof. reflexivity. Qed.

Lemma setLatestDrop_element files d :
  element (setLatestDrop files d).2 = element d.
Proof. reflexivity. Qed.

Lemma setLatestDrop_completion files d :
  (setLatestDrop files d).1 = notified files d.
Proof. reflexivity. Qed.

(** The two ways [onDroppableElementChange] can go. *)
Lemma onDroppableElementChange_chosen e d F :
  chosenFiles e = Some F →
  onDroppableElementChange {| event := e; this := d |}
  = (notified F d, {| event := e; this := (setLatestDrop F d).2 |}).
Proof.
  unfold chosenFiles, targetFiles. intros Hsrc.
  unfold onDroppableElementChange, read, mbind, M_bind. simpl.
  destruct (dataTransfer e) as [dt|].
  - simpl. rewrite Hsrc. reflexivity.
  - destruct (target e) as [t|]; simpl in Hsrc; [|discriminate].
    simpl. rewrite Hsrc. reflexivity.
Qed.

Lemma onDroppableElementChange_unreadable e d :
  chosenFiles e = None →
  ∃ err, onDroppableElementChange {| event := e; this := d |}
         = (Throw err, {| event := e; this := d |}).
Proof.
  unfold chosenFiles, targetFiles. intros Hsrc.
  unfold onDroppableElementChange, read, mbind, M_bind. simpl.
  destruct (dataTransfer e) as [dt|].
  - simpl. rewrite Hsrc. eexists. reflexivity.
  - destruct (target e) as [t|]; simpl in Hsrc.
    + simpl. rewrite Hsrc. eexists. reflexivity.
    + eexists. reflexivity.
Qed.

Lemma onDroppableElementChange_payload e d dt F :
  dataTransfer e = Some dt → dt_files dt = Some F →
  onDroppableElementChange {| event := e; this := d |}
  = (notified F d, {| event := e; this := (setLatestDrop F d).2 |}).
Proof.
  intros Hdt HF. apply onDroppableElementChange_chosen.
  unfold chosenFiles. by rewrite Hdt.
Qed.

Lemma onDroppableElementChange_target e d F :
  dataTransfer e = None → targetFiles e = Some F →
  onDroppableElementChange {| event := e; this := d |}
  = (notified F d, {| event := e; this := (setLatestDrop F d).2 |}).
Proof.
  intros Hdt Ht. apply onDroppableElementChange_chosen.
  unfold chosenFiles. by rewrite Hdt.
Qed.

Lemma chosenFiles_nothing e :
  dragPayloadFiles e = None → targetFiles e = None → chosenFiles e = None.
Proof.
  unfold chosenFiles, dragPayloadFiles. intros Hp Ht.
  destruct (dataTransfer e) as [dt|]; [exact Hp | exact Ht].
Qed.

Lemma onDroppableElementChange_nothing e d :
  dragPayloadFiles e = None → targetFiles e = None →
  ∃ err, onDroppableElementChange {| event := e; this := d |}
         = (Throw err, {| event := e; this := d |}).
Proof.
  intros Hp Ht. by apply onDroppableElementChange_unreadable, chosenFiles_nothing.
Qed.

(** Every event falls in one of the two cases. *)
Lemma onDroppableElementChange_cases e d :
  (∃ F, chosenFiles e = Some F
        ∧ onDroppableElementChange {| event := e; this := d |}
          = (notified F d, {| event := e; this := (setLatestDrop F d).2 |}))
  ∨ (chosenFiles e = None
     ∧ ∃ err, onDroppableElementChange {| event := e; this := d |}
              = (Throw err, {| event := e; this := d |})).
Proof.
  destruct (chosenFiles e) as [F|] eqn:Hsrc.
  - left. exists F. split; [done|]. by apply onDroppableElementChange_chosen.
  - right. split; [done|]. by apply onDroppableElementChange_unreadable.
Qed.

Lemma onElementDrop_unfold e d :
  onElementDrop {| event := e; this := d |}
  = onDroppableElementChange (dropPrologue e d).
Proof. reflexivity. Qed.

Lemma onElementDrop_payload e d dt F :
  dataTransfer e = Some dt → dt_files dt = Some F →
  onElementDrop {| event := e; this := d |}
  = (notified F d,
     {| event := stopPropagation (preventDefault e);
        this := (setLatestDrop F
                   (set_element
                      (classList_remove (dragOverClass d) (element d)) d)).2 |}).
Proof.
  intros Hdt HF. rewrite onElementDrop_unfold. unfold dropPrologue.
  rewrite (onDroppableElementChange_payload
             (stopPropagation (preventDefault e)) _ dt F Hdt HF).
  reflexivity.
Qed.

Lemma dropPrologue_latest e d :
  getLatestDroppedFiles (this (dropPrologue e d)) = getLatestDroppedFiles d.
Proof. reflexivity. Qed.

Lemma dropPrologue_notifications e d :
  notifications (this (dropPrologue e d)) = notifications d.
Proof. reflexivity. Qed.

(** A file handler either stores the chosen list and calls [emit] with it,
    ending the way [emit] does, or throws before that and leaves both the
    latest list and the log alone. *)
Lemma file_handler_cases h e d :
  file_handler h →
  (∃ F fr, chosenFiles e = Some F
           ∧ h {| event := e; this := d |} = (notified F d, fr)
           ∧ getLatestDroppedFiles (this fr) = F
           ∧ notifications (this fr) = notifications d ++ [F])
  ∨ (chosenFiles e = None
     ∧ ∃ err fr, h {| event := e; this := d |} = (Throw err, fr)
                 ∧ getLatestDroppedFiles (this fr) = getLatestDroppedFiles d
                 ∧ notifications (this fr) = notifications d).
Proof.
  intros [-> | ->].
  - rewrite onElementDrop_unfold. unfold dropPrologue.
    destruct (onDroppableElementChange_cases
                (stopPropagation (preventDefault e))
                (set_element (classList_remove (dragOverClass d) (element d)) d))
      as [(F & Hsrc & Hrun) | (Hsrc & err & Hrun)].
    + left. eexists F, _. split; [exact Hsrc|]. split; [exact Hrun|].
      split; reflexivity.
    + right. split; [exact Hsrc|].
      eexists err, _. split; [exact Hrun|]. split; reflexivity.
  - unfold onVirtualInputElementChange.
    destruct (onDroppableElementChange_cases e d)
      as [(F & Hsrc & Hrun) | (Hsrc & err & Hrun)].
    + left. eexists F, _. split; [exact Hsrc|]. split; [exact Hrun|].
      split; reflexivity.
    + right. split; [exact Hsrc|].
      eexists err, _. split; [exact Hrun|]. split; reflexivity.
Qed.










(** ** The status marker class *)

Lemma classList_add_elem token el :
  token ∈ classList (classList_add token el).
Proof.
  unfold classList_add. simpl. case_decide; [done|].
  apply elem_of_app. right. apply list_elem_of_singleton. done.
Qed.

Lemma classList_remove_not_elem token el :
  token ∉ classList (classList_remove token el).
Proof.
  unfold classList_remove. simpl. intros [Hne _]%list_elem_of_filter. done.
Qed.

Lemma classList_add_other token c el :
  c ≠ token → c ∈ classList (classList_add token el) ↔ c ∈ classList el.
Proof.
  intros Hne. unfold classList_add. simpl. case_decide; [done|].
  rewrite elem_of_app, list_elem_of_singleton. tauto.
Qed.

Lemma classList_remove_other token c el :
  c ≠ token → c ∈ classList (classList_remove token el) ↔ c ∈ classList el.
Proof.
  intros Hne. unfold classList_remove. simpl.
  rewrite list_elem_of_filter. tauto.
Qed.

Lemma onElementDragOver_run e d :
  onElementDragOver {| event := e; this := d |}
  = (Normal (),
     {| event := stopPropagation (preventDefault e);
        this := set_element (classList_add (dragOverClass d) (element d)) d |}).
Proof. reflexivity. Qed.

Lemma onElementDragLeave_run e d :
  onElementDragLeave {| event := e; this := d |}
  = (Normal (),
     {| event := stopPropagation (preventDefault e);
        this := set_element (classList_remove (dragOverClass d) (element d)) d |}).
Proof. reflexivity. Qed.

(** Whichever way [onElementDrop] ends, the event was suppressed and the
    host element is the old one without the marker class. *)
Lemma onElementDrop_element_event e d :
  element (this (onElementDrop {| event := e; this := d |}).2)
  = classList_remove (dragOverClass d) (element d)
  ∧ event (onElementDrop {| event := e; this := d |}).2
    = stopPropagation (preventDefault e).
Proof.
  rewrite onElementDrop_unfold. unfold dropPrologue.
  destruct (onDroppableElementChange_cases
              (stopPropagation (preventDefault e))
              (set_element (classList_remove (dragOverClass d) (element d)) d))
    as [(F & _ & ->) | (_ & err & ->)]; split; reflexivity.
Qed.

(** ** Delivery to the installed listeners *)

Lemma dispatch_dragover e d :
  listeners (element d) = hostBindings → type e = "dragover" →
  dispatchEvent HostElement e d
  = ((onElementDragOver {| event := e; this := d |}).2, []).
Proof.
  intros Hl Ht. destruct e as [ty dt tg dp ps]. simpl in Ht. subst ty.
  unfold dispatchEvent. simpl receiver. rewrite Hl. reflexivity.
Qed.

Lemma dispatch_dragleave e d :
  listeners (element d) = hostBindings → type e = "dragleave" →
  dispatchEvent HostElement e d
  = ((onElementDragLeave {| event := e; this := d |}).2, []).
Proof.
  intros Hl Ht. destruct e as [ty dt tg dp ps]. simpl in Ht. subst ty.
  unfold dispatchEvent. simpl receiver. rewrite Hl. reflexivity.
Qed.

Lemma dispatch_drop e d :
  listeners (element d) = hostBindings → type e = "drop" →
  dispatchEvent HostElement e d
  = ((onElementDrop {| event := e; this := d |}).2,
     reported (onElementDrop {| event := e; this := d |}).1).
Proof.
  intros Hl Ht.
  destruct e as [ty [[[F0|]]|] [[[F|]]|] dp ps]; simpl in Ht; subst ty;
    unfold dispatchEvent; simpl receiver; rewrite Hl; reflexivity.
Qed.

Lemma dispatch_change e d :
  listeners (virtualInputElement d) = inputBindings → type e = "change" →
  dispatchEvent HiddenInput e d
  = ((onVirtualInputElementChange {| event := e; this := d |}).2,
     reported (onVirtualInputElementChange {| event := e; this := d |}).1).
Proof.
  intros Hl Ht.
  destruct e as [ty [[[F0|]]|] [[[F|]]|] dp ps]; simpl in Ht; subst ty;
    unfold dispatchEvent; simpl receiver; rewrite Hl; reflexivity.
Qed.

(** The constructor installs the bindings on a host that had no listener. *)
Lemma constructor_installs cfg el d :
  Settings.element cfg = Some el → listeners el = [] →
  constructor (Some cfg) = Normal d →
  bindings_installed d.
Proof.
  intros Hel Hls Hd. unfold constructor in Hd. simpl in Hd. rewrite Hel in Hd.
  destruct el as [cl at_ sd ls ck]. simpl in Hls. subst ls.
  injection Hd as <-. split; reflexivity.
Qed.

Lemma sampleInstance_constructed :
  constructor (Some (Settings.only sampleHost)) = Normal sampleInstance.
Proof. reflexivity. Qed.

(** C6.  While the bindings are installed: a dragover event on the host
    element leaves the status marker class on it, a dragleave event leaves
    the host without it, and so does a drop event, whether or not the files
    could be read; after each of the three the event has had its default
    behaviour suppressed.  No other class of the host changes. *)
Theorem C6_status_marker_class (e : Event) (d : Droppable) :
  bindings_installed d →
  let after := (dispatchEvent HostElement e d).1 in
  (type e = "dragover" →
     dragOverClass d ∈ classList (element (this after))
     ∧ defaultPrevented (event after) = true)
  ∧ (type e = "dragleave" →
       (dragOverClass d ∉ classList (element (this after)))
       ∧ defaultPrevented (event after) = true)
  ∧ (type e = "drop" →
       (dragOverClass d ∉ classList (element (this after)))
       ∧ defaultPrevented (event after) = true)
  ∧ (type e = "dragover" ∨ type e = "dragleave" ∨ type e = "drop" →
     ∀ c, c ≠ dragOverClass d →
          c ∈ classList (element (this after)) ↔ c ∈ classList (element d)).
Proof.
  intros [Hhost _]. simpl.
  assert (type e = "dragover" →
          (dispatchEvent HostElement e d).1
          = {| event := stopPropagation (preventDefault e);
               this := set_element
                         (classList_add (dragOverClass d) (element d)) d |})
    as Hover.
  { intros Ht. rewrite (dispatch_dragover e d Hhost Ht). reflexivity. }
  assert (type e = "dragleave" →
          (dispatchEvent HostElement e d).1
          = {| event := stopPropagation (preventDefault e);
               this := set_element
                         (classList_remove (dragOverClass d) (element d)) d |})
    as Hleave.
  { intros Ht. rewrite (dispatch_dragleave e d Hhost Ht). reflexivity. }
  assert (type e = "drop" →
          element (this (dispatchEvent HostElement e d).1)
          = classList_remove (dragOverClass d) (element d)
          ∧ event (dispatchEvent HostElement e d).1
            = stopPropagation (preventDefault e))
    as Hdrop.
  { intros Ht. rewrite (dispatch_drop e d Hhost Ht). simpl.
    apply onElementDrop_element_event. }
  split; [|split; [|split]].
  - intros Ht. rewrite (Hover Ht). simpl. split; [|done].
    apply classList_add_elem.
  - intros Ht. rewrite (Hleave Ht). simpl. split; [|done].
    apply classList_remove_not_elem.
  - intros Ht. destruct (Hdrop Ht) as [-> ->]. split; [|done].
    apply classList_remove_not_elem.
  - intros [Ht | [Ht | Ht]] c Hc.
    + rewrite (Hover Ht). simpl. by apply classList_add_other.
    + rewrite (Hleave Ht). simpl. by apply classList_remove_other.
    + destruct (Hdrop Ht) as [-> _]. by apply classList_remove_other.
Qed.

Lemma C6_witness :
  ("dragover" ∈ classList (element (this
      (dispatchEvent HostElement (bareEvent "dragover") sampleInstance).1))
   ∧ defaultPrevented (event
       (dispatchEvent HostElement (bareEvent "dragover") sampleInstance).1) = true)
  ∧ (("dragover" ∉ classList (element (this
        (dispatchEvent HostElement (bareEvent "dragleave") sampleInstance).1)))
     ∧ defaultPrevented (event
         (dispatchEvent HostElement (bareEvent "dragleave") sampleInstance).1) = true)
  ∧ (("dragover" ∉ classList (element (this
        (dispatchEvent HostElement (dropOf sampleFiles) sampleInstance).1)))
     ∧ defaultPrevented (event
         (dispatchEvent HostElement (dropOf sampleFiles) sampleInstance).1) = true)
  ∧ ("zone" ∈ classList (element (this
       (dispatchEvent HostElement (dropOf sampleFiles) sampleInstance).1))
     ↔ "zone" ∈ classList (element sampleInstance)).
Proof.
  split; [|split; [|split]].
  - apply (proj1 (C6_status_marker_class (bareEvent "dragover") sampleInstance
                    (conj eq_refl eq_refl))).
    reflexivity.
  - apply (proj1 (proj2 (C6_status_marker_class (bareEvent "dragleave")
                           sampleInstance (conj eq_refl eq_refl)))).
    reflexivity.
  - apply (proj1 (proj2 (proj2 (C6_status_marker_class (dropOf sampleFiles)
                                  sampleInstance (conj eq_refl eq_refl))))).
    reflexivity.
  - apply (proj2 (proj2 (proj2 (C6_status_marker_class (dropOf sampleFiles)
                                  sampleInstance (conj eq_refl eq_refl))))).
    + right. right. reflexivity.
    + discriminate.
Defined.

(** ** The invariant *)

Lemma setLatestDrop_invariant files d :
  latest_is_last_notification (setLatestDrop files d).2.
Proof.
  unfold latest_is_last_notification.
  rewrite setLatestDrop_latest, setLatestDrop_notifications, last_snoc.
  reflexivity.
Qed.

Lemma file_handler_invariant h e d :
  file_handler h →
  latest_is_last_notification d →
  latest_is_last_notification (this (h {| event := e; this := d |}).2).
Proof.
  intros Hh Hinv. unfold latest_is_last_notification in *.
  destruct (file_handler_cases h e d Hh)
    as [(F & fr & _ & -> & Hlatest & Hlog)
       | (_ & err & fr & -> & Hlatest & Hlog)]; simpl.
  - rewrite Hlatest, Hlog, last_snoc. reflexivity.
  - rewrite Hlatest, Hlog. exact Hinv.
Qed.

Lemma callListener_invariant l fr :
  latest_is_last_notification (this fr) →
  latest_is_last_notification (this (callListener l fr).2).
Proof.
  destruct fr as [e d]. simpl. intros Hinv.
  destruct l as [m | id m]; destruct m; simpl; try exact Hinv.
  - apply file_handler_invariant; [by left | exact Hinv].
  - unfold onElementClick, read, mbind, M_bind. simpl.
    destruct (isClickable d); exact Hinv.
  - apply file_handler_invariant; [by right | exact Hinv].
Qed.

Lemma invokeListeners_invariant ls fr :
  latest_is_last_notification (this fr) →
  latest_is_last_notification (this (invokeListeners ls fr).1).
Proof.
  revert fr. induction ls as [| [ty l] rest IH]; intros fr Hinv; simpl.
  - exact Hinv.
  - case_decide.
    + pose proof (callListener_invariant l fr Hinv) as Hcall.
      destruct (callListener l fr) as [c fr1]. simpl in Hcall.
      specialize (IH fr1 Hcall).
      destruct (invokeListeners rest fr1) as [fr2 errs]. exact IH.
    + by apply IH.
Qed.

Lemma step_invariant d op :
  latest_is_last_notification d → latest_is_last_notification (step d op).
Proof.
  intros Hinv. destruct op; simpl; try exact Hinv.
  unfold dispatchEvent. by apply invokeListeners_invariant.
Qed.

Lemma run_invariant ops d :
  latest_is_last_notification d → latest_is_last_notification (run ops d).
Proof.
  unfold run. revert d. induction ops as [| op ops IH]; intros d Hinv; simpl.
  - exact Hinv.
  - apply IH. by apply step_invariant.
Qed.

(** Registration touches the listener list of the element and nothing else
    of it. *)
Lemma registerElementEventsWithDictionary_element el dict fresh :
  ∃ ls, (registerElementEventsWithDictionary el dict fresh).1.1
        = set_listeners ls el.
Proof.
  unfold registerElementEventsWithDictionary.
  assert (∀ (acc : HTMLElement * Remover * nat),
            (∃ ls, acc.1.1 = set_listeners ls el) →
            ∃ ls,
              (foldl
                 (λ '((element, eventRemovers, fresh) : HTMLElement * Remover * nat)
                    '((eventName, eventListener) : string * EventListener),
                    (addEventListener eventName (bind eventListener fresh) element,
                     eventRemovers ++ [(eventName, eventListener)],
                     S fresh))
                 acc dict).1.1 = set_listeners ls el) as Hfold.
  { induction dict as [| [name l] dict IH]; intros [[el0 rs] n] [ls Hls];
      simpl in *.
    - by exists ls.
    - apply IH. simpl. subst el0. eexists. reflexivity. }
  apply Hfold. simpl. exists (listeners el). by destruct el.
Qed.

(** The shape of a constructed instance: the instance as configured, with
    the listener lists of its two elements and its two removers filled in. *)
Lemma constructor_shape config el :
  Settings.element (default Settings.empty config) = Some el →
  ∃ ls_host ls_input r_host r_input,
    constructor config
    = Normal
        (set_virtualInputElementEventsRemover r_input
           (set_virtualInputElement
              (set_listeners ls_input
                 (setAttribute "multiple"
                    (Boolean_toString
                       (booleanOrTrue
                          (Settings.acceptsMultipleFiles
                             (default Settings.empty config))))
                    makeVirtualInputElement))
              (set_elementEventsRemover r_host
                 (set_element (set_listeners ls_host el)
                    (set_filesWereDroppedEvent
                       {| event_name := "drop"; emitted := []; subscribers := [] |}
                       (set_eventEmitter
                          (new_Noel
                             (default {| replay := true; replayBufferSize := 1 |}
                                (Settings.eventConfig
                                   (default Settings.empty config))))
                          (setAppendStatusClasses
                             (booleanOrTrue
                                (Settings.appendStatusClasses
                                   (default Settings.empty config)))
                             (setIsClickable
                                (booleanOrTrue
                                   (Settings.isClickable
                                      (default Settings.empty config)))
                                unassigned)))))))).
Proof.
  intros Hel. unfold constructor. rewrite Hel.
  unfold registerElementEvents, registerVirtualInputElementEvents.
  match goal with
  | |- context [registerElementEventsWithDictionary ?a ?b ?c] =>
      destruct (registerElementEventsWithDictionary_element a b c) as [ls1 H1];
      destruct (registerElementEventsWithDictionary a b c) as [[el1 r1] n1]
  end.
  simpl in H1. subst el1.
  match goal with
  | |- context [registerElementEventsWithDictionary ?a ?b ?c] =>
      destruct (registerElementEventsWithDictionary_element a b c) as [ls2 H2];
      destruct (registerElementEventsWithDictionary a b c) as [[el2 r2] n2]
  end.
  simpl in H2. subst el2.
  exists ls1, ls2, r1, r2. reflexivity.
Qed.

Lemma constructor_nothing_dropped config d :
  constructor config = Normal d →
  latestDroppedFiles d = None ∧ notifications d = [].
Proof.
  intros Hd.
  destruct (Settings.element (default Settings.empty config)) as [el|] eqn:Hel.
  - destruct (constructor_shape config el Hel)
      as (ls1 & ls2 & r1 & r2 & Hshape).
    rewrite Hshape in Hd. injection Hd as <-. split; reflexivity.
  - unfold constructor in Hd. rewrite Hel in Hd. discriminate.
Qed.

(** C2.  A new instance has an empty latest list and an empty log; every
    operation on an instance (a public method or a native event on the host
    element or the hidden input) keeps [getLatestDroppedFiles] equal to the
    payload of the last notification, or empty when there was none; so the
    equality holds in every state an instance can reach. *)
Theorem C2_latest_equals_last_notification
    (config : option DroppableSettings) (d0 : Droppable) :
  constructor config = Normal d0 →
  latest_is_last_notification d0
  ∧ (∀ d op, latest_is_last_notification d →
             latest_is_last_notification (step d op))
  ∧ (∀ ops, latest_is_last_notification (run ops d0)).
Proof.
  intros Hd.
  assert (latest_is_last_notification d0) as Hinit.
  { destruct (constructor_nothing_dropped config d0 Hd) as [Hlatest Hlog].
    unfold latest_is_last_notification, getLatestDroppedFiles.
    rewrite Hlatest, Hlog. reflexivity. }
  split; [exact Hinit|]. split.
  - intros d op. apply step_invariant.
  - intros ops. by apply run_invariant.
Qed.

Lemma C2_witness :
  latest_is_last_notification
    (run [native HostElement (dropOf sampleFiles);
          call_setAcceptsMultipleFiles false;
          native HostElement (bareEvent "drop");
          call_cleanUp;
          native HiddenInput (changeOf [photo_png]);
          call_promptForFiles]
       sampleInstance).
Proof.
  apply (proj2 (proj2 (C2_latest_equals_last_notification
                         (Some (Settings.only sampleHost)) sampleInstance
                         eq_refl))).
Defined.

(** ** Teardown *)

(** C5 (what the code does).  [cleanUp] hands [removeEventListener] the
    methods as the dictionaries hold them, while what was registered are the
    functions [bind] returned: no entry matches and every binding stays.  On
    an instance made for a host without listeners [cleanUp] changes nothing
    at all, and a drop on the host or a change of the hidden input after it
    still emits a notification. *)
Theorem C5_cleanUp_leaves_every_binding (classes : list string) (F : FileList) :
  ∃ d, constructor (Some (Settings.only (hostWith classes))) = Normal d
       ∧ cleanUp d = d
       ∧ bindings_installed (cleanUp d)
       ∧ notifications d = []
       ∧ notifications
           (this (dispatchEvent HostElement (dropOf F) (cleanUp d)).1) = [F]
       ∧ notifications
           (this (dispatchEvent HiddenInput (changeOf F) (cleanUp d)).1) = [F].
Proof.
  eexists. split; [reflexivity|]. repeat split; reflexivity.
Qed.

(** ** Configuration *)

(** C7.  An instance constructed with [acceptsMultipleFiles = false] has
    the hidden input's [multiple] attribute set from it, and a drop on its
    host still stores and emits the whole file collection, whatever its
    size: three files dropped are three files stored and three files
    emitted.  The host is one that had no listener before construction. *)
Theorem C7_multiple_flag_does_not_truncate
    (cfg : DroppableSettings) (el : HTMLElement) (d : Droppable)
    (e : Event) (F : FileList) :
  Settings.element cfg = Some el → listeners el = [] →
  Settings.acceptsMultipleFiles cfg = Some false →
  constructor (Some cfg) = Normal d →
  type e = "drop" → dataTransfer e = Some {| dt_files := Some F |} →
  let after := this (dispatchEvent HostElement e d).1 in
  getAttribute "multiple" (virtualInputElement d) = Some "false"
  ∧ getLatestDroppedFiles after = F
  ∧ notifications after = [F]
  ∧ (length F = 3 → length (getLatestDroppedFiles after) = 3).
Proof.
  intros Hel Hls Hmulti Hd Hty Hdt. simpl.
  destruct (constructor_installs cfg el d Hel Hls Hd) as [Hhost _].
  destruct (constructor_nothing_dropped (Some cfg) d Hd) as [_ Hlog].
  assert (getAttribute "multiple" (virtualInputElement d) = Some "false")
    as Hattr.
  { destruct (constructor_shape (Some cfg) el Hel)
      as (ls1 & ls2 & r1 & r2 & Hshape).
    rewrite Hshape in Hd. injection Hd as <-. simpl. rewrite Hmulti.
    unfold getAttribute. simpl. apply lookup_insert_eq. }
  rewrite (dispatch_drop e d Hhost Hty). simpl.
  rewrite (onElementDrop_payload e d _ F Hdt eq_refl). simpl.
  unfold notifications in *. simpl. rewrite Hlog. done.
Qed.

Lemma C7_witness :
  getAttribute "multiple"
    (virtualInputElement
       singleFileInstance) = Some "false"
  ∧ getLatestDroppedFiles
      (this (dispatchEvent HostElement (dropOf sampleFiles)
               singleFileInstance).1)
    = sampleFiles
  ∧ notifications
      (this (dispatchEvent HostElement (dropOf sampleFiles)
               singleFileInstance).1)
    = [sampleFiles]
  ∧ length (getLatestDroppedFiles
      (this (dispatchEvent HostElement (dropOf sampleFiles)
               singleFileInstance).1))
    = 3.
Proof.
  destruct (C7_multiple_flag_does_not_truncate
              singleFileSettings sampleHost
              singleFileInstance
              (dropOf sampleFiles) sampleFiles
              eq_refl eq_refl eq_refl eq_refl eq_refl eq_refl)
    as (Hattr & Hlatest & Hnotes & Hlen).
  exact (conj Hattr (conj Hlatest (conj Hnotes (Hlen eq_refl)))).
Defined.

(** C8.  A configuration without a host element, or no configuration at
    all, makes the constructor throw its configuration error at once: no
    instance comes out of it. *)
Theorem C8_element_is_required (config : option DroppableSettings) :
  config ≫= Settings.element = None →
  constructor config = Throw (Error "config.element: HTMLElement is required")
  ∧ ∀ d, constructor config ≠ Normal d.
Proof.
  intros Hnone.
  assert (constructor config
          = Throw (Error "config.element: HTMLElement is required")) as Hthrow.
  { unfold constructor. destruct config as [cfg|]; simpl in *.
    - rewrite Hnone. reflexivity.
    - reflexivity. }
  split; [exact Hthrow|]. intros d Hd. congruence.
Qed.

Lemma C8_witness :
  (constructor None = Throw (Error "config.element: HTMLElement is required")
   ∧ ∀ d, constructor None ≠ Normal d)
  ∧ (constructor (Some Settings.empty)
     = Throw (Error "config.element: HTMLElement is required")
     ∧ ∀ d, constructor (Some Settings.empty) ≠ Normal d).
Proof.
  split.
  - apply (C8_element_is_required None). reflexivity.
  - apply (C8_element_is_required (Some Settings.empty)). reflexivity.
Defined.

(** C9.  Whatever the host element, a configuration that holds it and
    nothing else gives an instance with [isClickable] true and
    [appendStatusClasses] true, whose hidden input was told
    [acceptsMultipleFiles = true] (the instance keeps that setting in the
    input's [multiple] attribute only), and whose [getLatestDroppedFiles]
    is empty. *)
Theorem C9_defaults (el : HTMLElement) :
  ∃ d, constructor (Some (Settings.only el)) = Normal d
       ∧ isClickable d = true
       ∧ booleanOrTrue (Settings.acceptsMultipleFiles (Settings.only el)) = true
       ∧ getAttribute "multiple" (virtualInputElement d) = Some "true"
       ∧ appendStatusClasses d = true
       ∧ getLatestDroppedFiles d = [].
Proof.
  destruct (constructor_shape (Some (Settings.only el)) el eq_refl)
    as (ls1 & ls2 & r1 & r2 & Hshape).
  eexists. split; [exact Hshape|]. repeat split.
Qed.

(** C10.  [setAcceptsMultipleFiles(b)] sets the [multiple] attribute of the
    hidden input to ["true"] or ["false"], the string form of [b]: with
    [false] the attribute is there, holding ["false"].  The call changes no
    field of the instance and nothing else of the input, so the boolean is
    kept nowhere but in that attribute. *)
Theorem C10_multiple_attribute (b : bool) (d : Droppable) :
  let d' := setAcceptsMultipleFiles b d in
  getAttribute "multiple" (virtualInputElement d')
  = Some (if b then "true" else "false")
  ∧ getAttribute "multiple" (virtualInputElement (setAcceptsMultipleFiles false d))
    = Some "false"
  ∧ d' = set_virtualInputElement
           (setAttribute "multiple" (Boolean_toString b) (virtualInputElement d)) d
  ∧ (dragOverClass d', appendStatusClasses d', isClickable d',
     filesWereDroppedEvent d', element d', elementEventsRemover d',
     virtualInputElementEventsRemover d', latestDroppedFiles d', eventEmitter d')
    = (dragOverClass d, appendStatusClasses d, isClickable d,
       filesWereDroppedEvent d, element d, elementEventsRemover d,
       virtualInputElementEventsRemover d, latestDroppedFiles d, eventEmitter d)
  ∧ (∀ name, name ≠ "multiple" →
       getAttribute name (virtualInputElement d')
       = getAttribute name (virtualInputElement d))
  ∧ (classList (virtualInputElement d'), style_display (virtualInputElement d'),
     listeners (virtualInputElement d'), clicks (virtualInputElement d'))
    = (classList (virtualInputElement d), style_display (virtualInputElement d),
       listeners (virtualInputElement d), clicks (virtualInputElement d)).
Proof.
  simpl. unfold getAttribute. simpl. repeat split.
  - destruct b; apply lookup_insert_eq.
  - apply lookup_insert_eq.
  - intros name Hname. by apply lookup_insert_ne.
Qed.

Lemma C10_witness :
  getAttribute "type"
    (virtualInputElement (setAcceptsMultipleFiles false sampleInstance))
  = getAttribute "type" (virtualInputElement sampleInstance).
Proof.
  apply (proj1 (proj2 (proj2 (proj2 (proj2
           (C10_multiple_attribute false sampleInstance)))))).
  discriminate.
Defined.

(** * Further properties of the code *)

(** ** Registration *)

Lemma set_listeners_set_listeners ls1 ls2 el :
  set_listeners ls1 (set_listeners ls2 el) = set_listeners ls1 el.
Proof. reflexivity. Qed.

Lemma set_listeners_same el : set_listeners (listeners el) el = el.
Proof. by destruct el. Qed.

Lemma fresh_for_snoc fresh ls eventName eventListener :
  fresh_for fresh ls →
  fresh_for (S fresh) (ls ++ [(eventName, bind eventListener fresh)]).
Proof.
  unfold fresh_for. intros Hfresh. apply Forall_app. split.
  - eapply Forall_impl; [exact Hfresh|]. intros [name l] Hl. simpl in *.
    destruct l; [done | lia].
  - apply Forall_singleton. simpl. destruct eventListener; simpl; lia.
Qed.

Lemma fresh_for_not_elem fresh ls eventName eventListener :
  fresh_for fresh ls → (eventName, bind eventListener fresh) ∉ ls.
Proof.
  unfold fresh_for. intros Hfresh Hin.
  rewrite Forall_forall in Hfresh. specialize (Hfresh _ Hin). simpl in Hfresh.
  destruct eventListener; simpl in Hfresh; lia.
Qed.

(** The loop of [registerElementEventsWithDictionary], from any point on. *)
Lemma register_loop dict el eventRemovers fresh :
  ∃ added,
    foldl
      (λ '((element, eventRemovers, fresh) : HTMLElement * Remover * nat)
         '((eventName, eventListener) : string * EventListener),
         (addEventListener eventName (bind eventListener fresh) element,
          eventRemovers ++ [(eventName, eventListener)],
          S fresh))
      (el, eventRemovers, fresh) dict
    = (set_listeners (listeners el ++ added) el,
       eventRemovers ++ dict, fresh + length dict)
    ∧ (fresh_for fresh (listeners el) → added = boundFrom fresh dict).
Proof.
  revert el eventRemovers fresh.
  induction dict as [| [eventName eventListener] dict IH];
    intros el eventRemovers fresh.
  - exists []. split; [|done]. simpl.
    rewrite !app_nil_r, Nat.add_0_r, set_listeners_same. reflexivity.
  - cbn [foldl].
    remember (addEventListener eventName (bind eventListener fresh) el)
      as el1 eqn:Hel1.
    destruct (IH el1 (eventRemovers ++ [(eventName, eventListener)]) (S fresh))
      as (added & Hrun & Hexact).
    unfold addEventListener in Hel1.
    destruct (decide ((eventName, bind eventListener fresh) ∈ listeners el))
      as [Hin | Hin].
    + rewrite set_listeners_same in Hel1. subst el1.
      exists added. split.
      * etrans; [exact Hrun|]. rewrite <- app_assoc. simpl. f_equal; lia.
      * intros Hfresh. exfalso.
        by apply (fresh_for_not_elem fresh (listeners el)
                    eventName eventListener).
    + subst el1. simpl in Hrun, Hexact.
      exists ((eventName, bind eventListener fresh) :: added). split.
      * etrans; [exact Hrun|]. rewrite <- !app_assoc. simpl. f_equal; lia.
      * intros Hfresh. simpl. f_equal. apply Hexact. by apply fresh_for_snoc.
Qed.

(** X1.  [registerElementEventsWithDictionary] returns as remover the
    dictionary's own pairs (the unbound listeners), uses up one function
    number per key, keeps every listener the element already had, in place,
    and changes nothing of the element but its listener list.  When the
    numbers from [fresh] on are unused, what it adds is exactly one bound
    function per key, in key order. *)
Theorem registerElementEventsWithDictionary_result
    (el : HTMLElement) (dict : list (string * EventListener)) (fresh : nat) :
  ∃ added,
    registerElementEventsWithDictionary el dict fresh
    = (set_listeners (listeners el ++ added) el, dict, fresh + length dict)
    ∧ (fresh_for fresh (listeners el) → added = boundFrom fresh dict).
Proof.
  unfold registerElementEventsWithDictionary.
  destruct (register_loop dict el [] fresh) as (added & Hrun & Hexact).
  exists added. split; [|exact Hexact]. exact Hrun.
Qed.

Lemma registerElementEventsWithDictionary_result_witness :
  ∃ added,
    registerElementEventsWithDictionary busyHost getElementEventsDictionary 8
    = (set_listeners (listeners busyHost ++ added) busyHost,
       getElementEventsDictionary, 12)
    ∧ added = [("dragover", BoundFunction 8 m_onElementDragOver);
               ("dragleave", BoundFunction 9 m_onElementDragLeave);
               ("drop", BoundFunction 10 m_onElementDrop);
               ("click", BoundFunction 11 m_onElementClick)].
Proof.
  destruct (registerElementEventsWithDictionary_result
              busyHost getElementEventsDictionary 8) as (added & Hrun & Hexact).
  exists added. split; [exact Hrun|]. apply Hexact.
  repeat constructor.
Defined.

(** ** Teardown, in general *)

Lemma filter_all {A} (P : A → Prop) `{!∀ x, Decision (P x)} (l : list A) :
  (∀ x, x ∈ l → P x) → filter P l = l.
Proof.
  induction l as [| x l IH]; intros Hall; [done|].
  rewrite filter_cons_True by (apply Hall; left).
  f_equal. apply IH. intros y Hy. apply Hall. by right.
Qed.

Lemma filter_twice {A} (P : A → Prop) `{!∀ x, Decision (P x)} (l : list A) :
  filter P (filter P l) = filter P l.
Proof.
  apply filter_all. intros x [HP _]%list_elem_of_filter. exact HP.
Qed.

(** A remover takes out the entries that are in it, and only those. *)
Lemma callRemover_result (r : Remover) (el : HTMLElement) :
  callRemover r el
  = set_listeners (filter (λ entry, entry ∉ r) (listeners el)) el.
Proof.
  unfold callRemover. revert el.
  induction r as [| [eventName eventListener] r IH]; intros el.
  - simpl. rewrite filter_all; [by rewrite set_listeners_same|].
    intros x _. apply not_elem_of_nil.
  - cbn [foldl]. rewrite IH. unfold removeEventListener, set_listeners. simpl.
    rewrite list_filter_filter. f_equal.
    apply list_filter_iff. intros x. rewrite not_elem_of_cons. tauto.
Qed.

Lemma cleanUp_unfold d :
  cleanUp d
  = set_virtualInputElement
      (set_listeners
         (filter (λ entry, entry ∉ virtualInputElementEventsRemover d)
            (listeners (virtualInputElement d)))
         (virtualInputElement d))
      (set_element
         (set_listeners
            (filter (λ entry, entry ∉ elementEventsRemover d)
               (listeners (element d)))
            (element d))
         d).
Proof. unfold cleanUp. rewrite !callRemover_result. reflexivity. Qed.

(** X2.  [cleanUp] on any instance: each element keeps, in order, exactly
    the listeners that are not in its remover; a second [cleanUp] changes
    nothing more; and neither the latest list, the log, the flags, the
    host's classes nor the hidden input's attributes are touched. *)
Theorem cleanUp_effect (d : Droppable) :
  listeners (element (cleanUp d))
  = filter (λ entry, entry ∉ elementEventsRemover d) (listeners (element d))
  ∧ listeners (virtualInputElement (cleanUp d))
    = filter (λ entry, entry ∉ virtualInputElementEventsRemover d)
        (listeners (virtualInputElement d))
  ∧ cleanUp (cleanUp d) = cleanUp d
  ∧ (latestDroppedFiles (cleanUp d), notifications (cleanUp d),
     isClickable (cleanUp d), appendStatusClasses (cleanUp d),
     classList (element (cleanUp d)),
     attributes (virtualInputElement (cleanUp d)),
     clicks (virtualInputElement (cleanUp d)))
    = (latestDroppedFiles d, notifications d,
       isClickable d, appendStatusClasses d,
       classList (element d),
       attributes (virtualInputElement d),
       clicks (virtualInputElement d)).
Proof.
  split; [|split; [|split]].
  - rewrite cleanUp_unfold. reflexivity.
  - rewrite cleanUp_unfold. reflexivity.
  - rewrite (cleanUp_unfold (cleanUp d)). rewrite !cleanUp_unfold. simpl.
    rewrite !filter_twice. reflexivity.
  - rewrite cleanUp_unfold. reflexivity.
Qed.

(** ** The wiring of an instance *)

Lemma onDroppableElementChange_wiring fr :
  wiring (this (onDroppableElementChange fr).2) = wiring (this fr).
Proof.
  destruct fr as [e d].
  destruct (onDroppableElementChange_cases e d)
    as [(F & _ & ->) | (_ & err & ->)]; reflexivity.
Qed.

Lemma callListener_wiring l fr :
  wiring (this (callListener l fr).2) = wiring (this fr).
Proof.
  destruct l as [m | id m]; destruct m; simpl; try reflexivity.
  - destruct fr as [e d]. rewrite onElementDrop_unfold.
    rewrite onDroppableElementChange_wiring. reflexivity.
  - destruct fr as [e d]. unfold onElementClick, read, mbind, M_bind. simpl.
    destruct (isClickable d); reflexivity.
  - apply onDroppableElementChange_wiring.
Qed.

Lemma invokeListeners_wiring ls fr :
  wiring (this (invokeListeners ls fr).1) = wiring (this fr).
Proof.
  revert fr. induction ls as [| [ty l] rest IH]; intros fr; simpl; [done|].
  case_decide; [|apply IH].
  pose proof (callListener_wiring l fr) as Hcall.
  destruct (callListener l fr) as [c fr1]. simpl in Hcall.
  pose proof (IH fr1) as Hrest.
  destruct (invokeListeners rest fr1) as [fr2 errs]. simpl in *. congruence.
Qed.

(** Only [cleanUp] can change the wiring. *)
Lemma step_wiring d op :
  op ≠ call_cleanUp → wiring (step d op) = wiring d.
Proof.
  intros Hop. destruct op; simpl; try reflexivity; [done|].
  unfold dispatchEvent. apply invokeListeners_wiring.
Qed.

Lemma cleanUp_constructedWiring d :
  wiring d = constructedWiring → wiring (cleanUp d) = constructedWiring.
Proof.
  intros Hw. unfold wiring, constructedWiring in Hw.
  injection Hw as Hhost Hinput Hr1 Hr2.
  unfold wiring. rewrite cleanUp_unfold. simpl.
  rewrite Hhost, Hinput, Hr1, Hr2. reflexivity.
Qed.

Lemma run_constructedWiring ops d :
  wiring d = constructedWiring → wiring (run ops d) = constructedWiring.
Proof.
  unfold run. revert d. induction ops as [| op ops IH]; intros d Hw; [done|].
  simpl. apply IH.
  destruct op; try (by rewrite step_wiring).
  by apply cleanUp_constructedWiring.
Qed.

Lemma constructor_wiring cfg el d :
  Settings.element cfg = Some el → listeners el = [] →
  constructor (Some cfg) = Normal d →
  wiring d = constructedWiring.
Proof.
  intros Hel Hls Hd. unfold constructor in Hd. simpl in Hd. rewrite Hel in Hd.
  destruct el as [cl at_ sd ls ck]. simpl in Hls. subst ls.
  injection Hd as <-. reflexivity.
Qed.

Lemma constructedWiring_installed d :
  wiring d = constructedWiring → bindings_installed d.
Proof.
  unfold wiring, constructedWiring. intros Hw.
  injection Hw as Hhost Hinput _ _. by split.
Qed.


Lemma onVirtualInputElementChange_target e d F :
  dataTransfer e = None → targetFiles e = Some F →
  onVirtualInputElementChange {| event := e; this := d |}
  = (notified F d, {| event := e; this := (setLatestDrop F d).2 |}).
Proof. apply onDroppableElementChange_target. Qed.

(** One delivery on an instance whose bindings are installed. *)
Lemma step_deliver d x :
  bindings_installed d →
  notifications (step d (deliver x)) = notifications d ++ [delivered x]
  ∧ getLatestDroppedFiles (step d (deliver x)) = delivered x.
Proof.
  intros [Hhost Hinput]. destruct x as [F | F]; unfold deliver, delivered, step.
  - rewrite (dispatch_drop (dropOf F) d Hhost eq_refl).
    rewrite (onElementDrop_payload (dropOf F) d _ F eq_refl eq_refl).
    split; reflexivity.
  - rewrite (dispatch_change (changeOf F) d Hinput eq_refl).
    rewrite (onVirtualInputElementChange_target (changeOf F) d F eq_refl eq_refl).
    split; reflexivity.
Qed.

(** X3.  On an instance made for a host without listeners the bindings
    outlive every sequence of operations, [cleanUp] included (its removers
    hold the unbound methods, the listener lists hold the bound functions):
    after any such sequence a drop on the host, or a selection in the hidden
    input, still appends its file list to the log. *)
Theorem bindings_outlive_every_operation
    (cfg : DroppableSettings) (el : HTMLElement) (d : Droppable)
    (ops : list Operation) (F : FileList) :
  Settings.element cfg = Some el → listeners el = [] →
  constructor (Some cfg) = Normal d →
  bindings_installed (run ops d)
  ∧ notifications (step (run ops d) (native HostElement (dropOf F)))
    = notifications (run ops d) ++ [F]
  ∧ notifications (step (run ops d) (native HiddenInput (changeOf F)))
    = notifications (run ops d) ++ [F].
Proof.
  intros Hel Hls Hd.
  assert (bindings_installed (run ops d)) as Hinst.
  { apply constructedWiring_installed, run_constructedWiring.
    by apply (constructor_wiring cfg el). }
  split; [exact Hinst|]. split.
  - apply (step_deliver (run ops d) (Dropped F) Hinst).
  - apply (step_deliver (run ops d) (Picked F) Hinst).
Qed.

Lemma bindings_outlive_every_operation_witness :
  bindings_installed
    (run [call_cleanUp; native HostElement (bareEvent "dragover"); call_cleanUp]
       sampleInstance)
  ∧ notifications
      (step (run [call_cleanUp; native HostElement (bareEvent "dragover");
                  call_cleanUp] sampleInstance)
         (native HostElement (dropOf sampleFiles)))
    = notifications
        (run [call_cleanUp; native HostElement (bareEvent "dragover");
              call_cleanUp] sampleInstance) ++ [sampleFiles]
  ∧ notifications
      (step (run [call_cleanUp; native HostElement (bareEvent "dragover");
                  call_cleanUp] sampleInstance)
         (native HiddenInput (changeOf sampleFiles)))
    = notifications
        (run [call_cleanUp; native HostElement (bareEvent "dragover");
              call_cleanUp] sampleInstance) ++ [sampleFiles].
Proof.
  apply (bindings_outlive_every_operation
           (Settings.only sampleHost) sampleHost sampleInstance
           [call_cleanUp; native HostElement (bareEvent "dragover"); call_cleanUp]
           sampleFiles eq_refl eq_refl eq_refl).
Defined.

(** ** Events the instance does not listen to *)

(** X4.  With the bindings installed, an event on the host whose type is
    none of dragover, dragleave, drop and click, and an event on the hidden
    input whose type is not change, run no listener: the instance and the
    event stay as they were and nothing is reported. *)
Theorem other_events_are_ignored (e : Event) (d : Droppable) :
  bindings_installed d →
  (type e ∉ ["dragover"; "dragleave"; "drop"; "click"] →
   dispatchEvent HostElement e d = ({| event := e; this := d |}, []))
  ∧ (type e ≠ "change" →
     dispatchEvent HiddenInput e d = ({| event := e; this := d |}, [])).
Proof.
  intros [Hhost Hinput]. unfold dispatchEvent. simpl receiver.
  rewrite Hhost, Hinput. split.
  - rewrite !not_elem_of_cons. intros (H1 & H2 & H3 & H4 & _).
    simpl. repeat case_decide; congruence.
  - intros Hne. simpl. case_decide; congruence.
Qed.

Lemma other_events_are_ignored_witness :
  dispatchEvent HostElement (changeOf sampleFiles) sampleInstance
  = ({| event := changeOf sampleFiles; this := sampleInstance |}, [])
  ∧ dispatchEvent HiddenInput (dropOf sampleFiles) sampleInstance
    = ({| event := dropOf sampleFiles; this := sampleInstance |}, []).
Proof.
  split.
  - apply (proj1 (other_events_are_ignored (changeOf sampleFiles) sampleInstance
                    (conj eq_refl eq_refl))).
    rewrite !not_elem_of_cons. repeat split; try discriminate.
    apply not_elem_of_nil.
  - apply (proj2 (other_events_are_ignored (dropOf sampleFiles) sampleInstance
                    (conj eq_refl eq_refl))).
    discriminate.
Defined.

(** ** Clicking the host *)

Lemma dispatch_click e d :
  listeners (element d) = hostBindings → type e = "click" →
  dispatchEvent HostElement e d
  = ({| event := e; this := if isClickable d then promptForFiles d else d |}, []).
Proof.
  intros Hl Ht. destruct e as [ty dt tg dp ps]. simpl in Ht. subst ty.
  unfold dispatchEvent. simpl receiver. rewrite Hl.
  unfold hostBindings, invokeListeners, callListener, method, onElementClick,
    read, mbind, M_bind. simpl.
  destruct (isClickable d); reflexivity.
Qed.

(** X5.  After [setIsClickable(b)], a click on the host calls [click()] on
    the hidden input once when [b] is true and not at all when it is false.
    Either way the click emits nothing, leaves the latest list and the host
    alone, does not suppress the event, and reports nothing. *)
Theorem click_prompts_only_when_clickable (b : bool) (e : Event) (d : Droppable) :
  bindings_installed d → type e = "click" →
  let after := dispatchEvent HostElement e (setIsClickable b d) in
  clicks (virtualInputElement (this after.1))
  = clicks (virtualInputElement d) + (if b then 1 else 0)
  ∧ event after.1 = e
  ∧ after.2 = []
  ∧ notifications (this after.1) = notifications d
  ∧ latestDroppedFiles (this after.1) = latestDroppedFiles d
  ∧ element (this after.1) = element d.
Proof.
  intros [Hhost _] Ht. simpl.
  rewrite (dispatch_click e (setIsClickable b d) Hhost Ht).
  destruct b; simpl; repeat split; lia.
Qed.

Lemma click_prompts_only_when_clickable_witness :
  clicks (virtualInputElement
            (this (dispatchEvent HostElement (bareEvent "click")
                     (setIsClickable true sampleInstance)).1)) = 1
  ∧ clicks (virtualInputElement
              (this (dispatchEvent HostElement (bareEvent "click")
                       (setIsClickable false sampleInstance)).1)) = 0.
Proof.
  split.
  - apply (proj1 (click_prompts_only_when_clickable true (bareEvent "click")
                    sampleInstance (conj eq_refl eq_refl) eq_refl)).
  - apply (proj1 (click_prompts_only_when_clickable false (bareEvent "click")
                    sampleInstance (conj eq_refl eq_refl) eq_refl)).
Defined.

(** ** The status-class flag *)

(** X6.  [appendStatusClasses] is stored and never read: every listener
    does on an instance with the flag set to [b] what it does without, flag
    aside.  With the flag false a dragover still adds the marker class. *)
Theorem appendStatusClasses_is_never_read
    (m : MethodName) (b : bool) (e : Event) (d : Droppable) :
  method m {| event := e; this := setAppendStatusClasses b d |}
  = ((method m {| event := e; this := d |}).1,
     {| event := event (method m {| event := e; this := d |}).2;
        this := setAppendStatusClasses b
                  (this (method m {| event := e; this := d |}).2) |})
  ∧ dragOverClass d
    ∈ classList (element (this (onElementDragOver
        {| event := e; this := setAppendStatusClasses false d |}).2)).
Proof.
  split.
  - destruct m; simpl; try reflexivity.
    + destruct e as [ty [[[F0|]]|] [[[F|]]|] dp ps]; reflexivity.
    + unfold onElementClick, read, mbind, M_bind. simpl.
      destruct (isClickable d); reflexivity.
    + destruct e as [ty [[[F0|]]|] [[[F|]]|] dp ps]; reflexivity.
  - rewrite onElementDragOver_run. simpl.
    apply (classList_add_elem (dragOverClass d) (element d)).
Qed.

(** ** Sequences of deliveries *)




(** ** The log only grows *)

Lemma callListener_log l fr :
  ∃ suffix,
    notifications (this (callListener l fr).2)
    = notifications (this fr) ++ suffix.
Proof.
  destruct fr as [e d].
  destruct l as [m | id m]; destruct m; simpl;
    try (exists []; rewrite app_nil_r; reflexivity).
  - destruct (file_handler_cases onElementDrop e d (or_introl eq_refl))
      as [(F & fr & _ & -> & _ & Hlog) | (_ & err & fr & -> & _ & Hlog)];
      simpl; rewrite Hlog; [by exists [F] | exists []; by rewrite app_nil_r].
  - unfold onElementClick, read, mbind, M_bind. simpl.
    destruct (isClickable d); exists []; rewrite app_nil_r; reflexivity.
  - destruct (file_handler_cases onVirtualInputElementChange e d
                (or_intror eq_refl))
      as [(F & fr & _ & -> & _ & Hlog) | (_ & err & fr & -> & _ & Hlog)];
      simpl; rewrite Hlog; [by exists [F] | exists []; by rewrite app_nil_r].
Qed.

Lemma invokeListeners_log ls fr :
  ∃ suffix,
    notifications (this (invokeListeners ls fr).1)
    = notifications (this fr) ++ suffix.
Proof.
  revert fr. induction ls as [| [ty l] rest IH]; intros fr; simpl.
  - exists []. by rewrite app_nil_r.
  - case_decide; [|apply IH].
    destruct (callListener_log l fr) as [s1 H1].
    destruct (callListener l fr) as [c fr1]. simpl in H1.
    destruct (IH fr1) as [s2 H2].
    destruct (invokeListeners rest fr1) as [fr2 errs]. simpl in *.
    exists (s1 ++ s2). rewrite H2, H1, app_assoc. reflexivity.
Qed.

Lemma step_log d op :
  ∃ suffix, notifications (step d op) = notifications d ++ suffix.
Proof.
  destruct op; simpl; try (exists []; rewrite app_nil_r; reflexivity).
  unfold dispatchEvent. apply invokeListeners_log.
Qed.

(** X8.  No operation rewrites the log: after any sequence of operations
    on any instance the old log is a prefix of the new one.  A call of a
    public method, as opposed to a native event, adds nothing to it and
    leaves the latest list as it is. *)
Theorem log_only_grows (ops : list Operation) (d : Droppable) :
  (∃ suffix, notifications (run ops d) = notifications d ++ suffix)
  ∧ (∀ op, (∀ on e, op ≠ native on e) →
       notifications (step d op) = notifications d
       ∧ latestDroppedFiles (step d op) = latestDroppedFiles d).
Proof.
  split.
  - unfold run. revert d. induction ops as [| op ops IH]; intros d.
    + exists []. simpl. by rewrite app_nil_r.
    + cbn [foldl]. destruct (step_log d op) as [s1 H1].
      destruct (IH (step d op)) as [s2 H2].
      exists (s1 ++ s2). rewrite H2, H1, app_assoc. reflexivity.
  - intros op Hop. destruct op; unfold step; try (split; reflexivity).
    exfalso. by apply (Hop on e).
Qed.

Lemma log_only_grows_witness :
  notifications
    (step loadedInstance call_cleanUp)
  = [sampleFiles]
  ∧ latestDroppedFiles
      (step loadedInstance call_cleanUp)
    = Some sampleFiles.
Proof.
  apply (proj2 (log_only_grows [] loadedInstance)
           call_cleanUp).
  discriminate.
Defined.

(** ** Drag gestures compose *)

Lemma classList_remove_add token el :
  token ∉ classList el → classList_remove token (classList_add token el) = el.
Proof.
  intros Hnot. unfold classList_remove, classList_add, set_classList. simpl.
  rewrite decide_False by exact Hnot.
  rewrite filter_app, filter_cons_False, filter_nil, app_nil_r by (intros H; by apply H).
  rewrite filter_all; [by destruct el|].
  intros x Hx ->. by apply Hnot.
Qed.

Lemma classList_add_add token el :
  classList_add token (classList_add token el) = classList_add token el.
Proof.
  unfold classList_add at 1. rewrite decide_True by apply classList_add_elem.
  unfold set_classList. by destruct (classList_add token el).
Qed.

(** X9.  With the bindings installed: a dragover followed by a dragleave
    gives back the instance as it was, provided the host did not carry the
    marker class before; and a second dragover changes nothing the first
    did not. *)
Theorem dragover_then_dragleave (over leave : Event) (d : Droppable) :
  bindings_installed d → type over = "dragover" → type leave = "dragleave" →
  (dragOverClass d ∉ classList (element d) →
   this (dispatchEvent HostElement leave
           (this (dispatchEvent HostElement over d).1)).1 = d)
  ∧ this (dispatchEvent HostElement over
            (this (dispatchEvent HostElement over d).1)).1
    = this (dispatchEvent HostElement over d).1.
Proof.
  intros [Hhost Hinput] Hover Hleave.
  rewrite (dispatch_dragover over d Hhost Hover), onElementDragOver_run.
  cbn [fst snd this].
  split.
  - intros Hnot. rewrite dispatch_dragleave; [|exact Hhost|exact Hleave].
    rewrite onElementDragLeave_run. cbn [fst snd this]. simpl.
    rewrite classList_remove_add by exact Hnot. by destruct d.
  - rewrite dispatch_dragover; [|exact Hhost|exact Hover].
    rewrite onElementDragOver_run. cbn [fst snd this]. simpl.
    rewrite classList_add_add. reflexivity.
Qed.

Lemma dragover_then_dragleave_witness :
  this (dispatchEvent HostElement (bareEvent "dragleave")
          (this (dispatchEvent HostElement (bareEvent "dragover")
                   sampleInstance).1)).1 = sampleInstance
  ∧ this (dispatchEvent HostElement (bareEvent "dragover")
            (this (dispatchEvent HostElement (bareEvent "dragover")
                     sampleInstance).1)).1
    = this (dispatchEvent HostElement (bareEvent "dragover") sampleInstance).1.
Proof.
  destruct (dragover_then_dragleave (bareEvent "dragover") (bareEvent "dragleave")
              sampleInstance (conj eq_refl eq_refl) eq_refl eq_refl)
    as [Hback Htwice].
  split; [|exact Htwice].
  apply Hback. simpl. rewrite not_elem_of_cons. split; [discriminate|].
  apply not_elem_of_nil.
Defined.

(** ** Which error a handler throws *)

(** X10.  A drop or change handler throws its own error, "Fired event
    contains no files", exactly when the event has neither a drag payload
    nor a target; the only other way for it to end with that error is a
    listener throwing the very same error out of [emit].  An event without
    payload whose target has no file collection, and an event whose payload
    has none, get past that test and fail in [Array.from] with a
    [TypeError] instead. *)
Theorem own_error_needs_no_payload_and_no_target
    (h : M unit) (e : Event) (d : Droppable) :
  file_handler h →
  ((h {| event := e; this := d |}).1
   = Throw (Error "Fired event contains no files")
   ↔ (dataTransfer e = None ∧ target e = None)
     ∨ ∃ F, chosenFiles e = Some F
            ∧ notified F d = Throw (Error "Fired event contains no files"))
  ∧ ((∀ F, notified F d ≠ Throw (Error "Fired event contains no files")) →
     ((h {| event := e; this := d |}).1
      = Throw (Error "Fired event contains no files")
      ↔ dataTransfer e = None ∧ target e = None))
  ∧ (dataTransfer e = None → target e = Some {| target_files := None |} →
     ∃ message, (h {| event := e; this := d |}).1 = Throw (TypeError message))
  ∧ (dataTransfer e = Some {| dt_files := None |} →
     ∃ message, (h {| event := e; this := d |}).1 = Throw (TypeError message)).
Proof.
  intros Hh.
  assert ((h {| event := e; this := d |}).1
          = Throw (Error "Fired event contains no files")
          ↔ (dataTransfer e = None ∧ target e = None)
            ∨ ∃ F, chosenFiles e = Some F
                   ∧ notified F d
                     = Throw (Error "Fired event contains no files"))
    as Hiff.
  { destruct Hh as [-> | ->];
      destruct e as [ty [[[F0|]]|] [[[F|]]|] dp ps];
      unfold chosenFiles, targetFiles; simpl;
      (split;
       [ intros H;
         first [ left; by split
               | right; eexists; split; [reflexivity | exact H]
               | discriminate H ]
       | intros [[H1 H2] | (F' & H1 & H2)];
         first [ reflexivity
               | discriminate
               | injection H1 as <-; exact H2 ] ]). }
  split; [exact Hiff|]. split; [|split].
  - intros Hother. rewrite Hiff. split; [|by left].
    intros [Hnone | (F & _ & Hthrow)]; [exact Hnone|].
    by destruct (Hother F).
  - intros Hdt Ht. destruct Hh as [-> | ->];
      destruct e as [ty dt tg dp ps]; simpl in Hdt, Ht; subst dt tg;
      eexists; reflexivity.
  - intros Hdt. destruct Hh as [-> | ->];
      destruct e as [ty dt tg dp ps]; simpl in Hdt; subst dt;
      eexists; reflexivity.
Qed.

Lemma own_error_needs_no_payload_and_no_target_witness :
  (dataTransfer (dropOf sampleFiles) = None ∧ target (dropOf sampleFiles) = None
   → (onElementDrop {| event := dropOf sampleFiles; this := sampleInstance |}).1
     = Throw (Error "Fired event contains no files"))
  ∧ (∃ message,
       (onVirtualInputElementChange
          {| event := {| type := "change"; dataTransfer := None;
                         target := Some {| target_files := None |};
                         defaultPrevented := false;
                         propagationStopped := false |};
             this := sampleInstance |}).1
       = Throw (TypeError message))
  ∧ (∃ message,
       (onElementDrop
          {| event := payloadWithoutFiles sampleFiles; this := sampleInstance |}).1
       = Throw (TypeError message)).
Proof.
  split; [|split].
  - apply (proj1 (proj2 (own_error_needs_no_payload_and_no_target onElementDrop
                           (dropOf sampleFiles) sampleInstance
                           (or_introl eq_refl)))).
    intros F. discriminate.
  - apply (proj1 (proj2 (proj2 (own_error_needs_no_payload_and_no_target
                    onVirtualInputElementChange
                    {| type := "change"; dataTransfer := None;
                       target := Some {| target_files := None |};
                       defaultPrevented := false;
                       propagationStopped := false |}
                    sampleInstance (or_intror eq_refl)))));
      reflexivity.
  - apply (proj2 (proj2 (proj2 (own_error_needs_no_payload_and_no_target
                    onElementDrop (payloadWithoutFiles sampleFiles)
                    sampleInstance (or_introl eq_refl))))).
    reflexivity.
Defined.

(** ** Listeners and the event object *)

(** X11.  The three drag listeners call [preventDefault] and
    [stopPropagation] on the event before anything else, so both are done
    even when the drop then throws; the click and change listeners never
    touch the event.  No listener changes the event otherwise. *)
Theorem listeners_and_the_event (m : MethodName) (e : Event) (d : Droppable) :
  event (method m {| event := e; this := d |}).2
  = if drag_method m then stopPropagation (preventDefault e) else e.
Proof.
  destruct m; cbn [method drag_method]; try reflexivity.
  - apply onElementDrop_element_event.
  - unfold onElementClick, read, mbind, M_bind. simpl.
    destruct (isClickable d); reflexivity.
  - unfold onVirtualInputElementChange.
    destruct (onDroppableElementChange_cases e d)
      as [(F & _ & ->) | (_ & err & ->)]; reflexivity.
Qed.

(** ** A drop that cannot be read *)

(** X12.  With the bindings installed, a drop on the host that carries no
    file collection is reported to the page as one error; the instance is
    the old one with the marker class taken off the host, so the latest
    list and the log are as before.  A change of the hidden input without a
    file collection is reported likewise and leaves the instance exactly as
    it was. *)
Theorem unreadable_event_is_reported_once (e : Event) (d : Droppable) :
  bindings_installed d →
  dragPayloadFiles e = None → targetFiles e = None →
  (type e = "drop" →
   length (dispatchEvent HostElement e d).2 = 1
   ∧ this (dispatchEvent HostElement e d).1
     = set_element (classList_remove (dragOverClass d) (element d)) d)
  ∧ (type e = "change" →
     length (dispatchEvent HiddenInput e d).2 = 1
     ∧ (dispatchEvent HiddenInput e d).1 = {| event := e; this := d |}).
Proof.
  intros [Hhost Hinput] Hp Ht.
  split; intros Hty.
  - rewrite (dispatch_drop e d Hhost Hty), onElementDrop_unfold.
    unfold dropPrologue.
    destruct (onDroppableElementChange_nothing
                (stopPropagation (preventDefault e))
                (set_element (classList_remove (dragOverClass d) (element d)) d)
                Hp Ht) as [err ->].
    split; reflexivity.
  - rewrite (dispatch_change e d Hinput Hty).
    destruct (onDroppableElementChange_nothing e d Hp Ht) as [err Hrun].
    change (onDroppableElementChange {| event := e; this := d |})
      with (onVirtualInputElementChange {| event := e; this := d |}) in Hrun.
    rewrite Hrun. split; reflexivity.
Qed.

Lemma unreadable_event_is_reported_once_witness :
  (length (dispatchEvent HostElement (bareEvent "drop")
             loadedInstance).2 = 1
   ∧ this (dispatchEvent HostElement (bareEvent "drop")
             loadedInstance).1
     = set_element
         (classList_remove "dragover"
            (element loadedInstance))
         loadedInstance)
  ∧ (length (dispatchEvent HiddenInput (bareEvent "change") sampleInstance).2 = 1
     ∧ (dispatchEvent HiddenInput (bareEvent "change") sampleInstance).1
       = {| event := bareEvent "change"; this := sampleInstance |}).
Proof.
  split.
  - apply (proj1 (unreadable_event_is_reported_once (bareEvent "drop")
                    loadedInstance
                    (conj eq_refl eq_refl) eq_refl eq_refl)).
    reflexivity.
  - apply (proj2 (unreadable_event_is_reported_once (bareEvent "change")
                    sampleInstance (conj eq_refl eq_refl) eq_refl eq_refl)).
    reflexivity.
Defined.

(** ** What the constructor builds *)

Lemma booleanOrTrue_default v : booleanOrTrue v = default true v.
Proof. by destruct v. Qed.

(** Every field of a constructed instance. *)
Lemma constructor_result config el :
  Settings.element (default Settings.empty config) = Some el →
  ∃ d added,
    constructor config = Normal d
    ∧ element d = set_listeners (listeners el ++ added) el
    ∧ (fresh_for 0 (listeners el) → added = hostBindings)
    ∧ elementEventsRemover d = getElementEventsDictionary
    ∧ virtualInputElementEventsRemover d = getVirtualInputElementEventsDictionary
    ∧ virtualInputElement d
      = set_listeners inputBindings
          (setAttribute "multiple"
             (Boolean_toString
                (booleanOrTrue
                   (Settings.acceptsMultipleFiles (default Settings.empty config))))
             makeVirtualInputElement)
    ∧ isClickable d
      = booleanOrTrue (Settings.isClickable (default Settings.empty config))
    ∧ appendStatusClasses d
      = booleanOrTrue (Settings.appendStatusClasses (default Settings.empty config))
    ∧ eventEmitter d
      = new_Noel (default {| replay := true; replayBufferSize := 1 |}
                    (Settings.eventConfig (default Settings.empty config)))
    ∧ filesWereDroppedEvent d
      = {| event_name := "drop"; emitted := []; subscribers := [] |}
    ∧ dragOverClass d = "dragover"
    ∧ latestDroppedFiles d = None.
Proof.
  intros Hel. unfold constructor. rewrite Hel.
  unfold registerElementEvents, registerVirtualInputElementEvents.
  cbv beta iota zeta.
  match goal with
  | |- context [registerElementEventsWithDictionary ?a ?b ?c] =>
      destruct (register_loop b a [] c) as (added1 & H1 & Hx1);
      assert (registerElementEventsWithDictionary a b c
              = (set_listeners (listeners a ++ added1) a, b, c + length b))
        as E1 by exact H1;
      rewrite E1; clear E1 H1
  end.
  cbv beta iota zeta.
  match goal with
  | |- context [registerElementEventsWithDictionary ?a ?b ?c] =>
      destruct (register_loop b a [] c) as (added2 & H2 & Hx2);
      assert (registerElementEventsWithDictionary a b c
              = (set_listeners (listeners a ++ added2) a, b, c + length b))
        as E2 by exact H2;
      rewrite E2; clear E2 H2
  end.
  cbv beta iota zeta.
  assert (added2 = inputBindings) as ->.
  { apply Hx2. unfold fresh_for. simpl. constructor. }
  eexists. exists added1. split; [reflexivity|].
  repeat split. exact Hx1.
Qed.

(** X13.  The constructor returns an instance exactly when the
    configuration has a host element.  The instance has the clickable and
    status-class flags as configured, true when left out (an explicit false
    is kept); its hidden input is a file input that is not displayed, has
    never been clicked, and carries the multiple setting as configured;
    the emitter got the configured Noel options, by default replay with a
    buffer of one; the channel is the event named drop. *)
Theorem constructor_follows_the_configuration (config : option DroppableSettings) :
  (is_Some (config ≫= Settings.element) ↔ ∃ d, constructor config = Normal d)
  ∧ ∀ d, constructor config = Normal d →
      let cfg := default Settings.empty config in
      isClickable d = default true (Settings.isClickable cfg)
      ∧ appendStatusClasses d = default true (Settings.appendStatusClasses cfg)
      ∧ getAttribute "multiple" (virtualInputElement d)
        = Some (if default true (Settings.acceptsMultipleFiles cfg)
                then "true" else "false")
      ∧ getAttribute "type" (virtualInputElement d) = Some "file"
      ∧ style_display (virtualInputElement d) = "none"
      ∧ clicks (virtualInputElement d) = 0
      ∧ noel_config (eventEmitter d)
        = default {| replay := true; replayBufferSize := 1 |}
            (Settings.eventConfig cfg)
      ∧ event_name (filesWereDroppedEvent d) = "drop"
      ∧ dragOverClass d = "dragover".
Proof.
  assert (config ≫= Settings.element
          = Settings.element (default Settings.empty config)) as Hsame.
  { by destruct config. }
  destruct (Settings.element (default Settings.empty config)) as [el|] eqn:Hel.
  - destruct (constructor_result config el Hel)
      as (d0 & added & Hd0 & _ & _ & _ & _ & Hinput & Hclick & Hstatus
          & Hemitter & Hevent & Hclass & _).
    split.
    + rewrite Hsame. split; [intros _; by exists d0 | intros _; by eexists].
    + intros d Hd. rewrite Hd0 in Hd. injection Hd as <-. simpl.
      rewrite Hclick, Hstatus, Hinput, Hemitter, Hevent, Hclass.
      rewrite !booleanOrTrue_default. unfold getAttribute. simpl.
      repeat split.
  - assert (constructor config
            = Throw (Error "config.element: HTMLElement is required")) as Hthrow.
    { unfold constructor. by rewrite Hel. }
    split.
    + rewrite Hsame. split; [intros [x Hx]; discriminate|].
      intros [d Hd]. congruence.
    + intros d Hd. congruence.
Qed.

Lemma constructor_follows_the_configuration_witness :
  isClickable singleFileInstance = true
  ∧ appendStatusClasses singleFileInstance = true
  ∧ getAttribute "multiple" (virtualInputElement singleFileInstance) = Some "false"
  ∧ getAttribute "type" (virtualInputElement singleFileInstance) = Some "file"
  ∧ style_display (virtualInputElement singleFileInstance) = "none"
  ∧ clicks (virtualInputElement singleFileInstance) = 0
  ∧ noel_config (eventEmitter singleFileInstance)
    = {| replay := true; replayBufferSize := 1 |}
  ∧ event_name (filesWereDroppedEvent singleFileInstance) = "drop"
  ∧ dragOverClass singleFileInstance = "dragover".
Proof.
  apply (proj2 (constructor_follows_the_configuration (Some singleFileSettings))
           singleFileInstance eq_refl).
Defined.

(** X14.  The constructor leaves the host element as it found it, but for
    listeners it appends after those already there: four bound functions,
    for dragover, dragleave, drop and click in this order, when the host
    carries no bound function of the instance yet.  The hidden input gets
    the bound change listener and nothing else, and the two removers hold
    the unbound methods of the dictionaries. *)
Theorem constructor_wires_the_elements
    (cfg : DroppableSettings) (el : HTMLElement) (d : Droppable) :
  Settings.element cfg = Some el →
  constructor (Some cfg) = Normal d →
  ∃ added,
    element d = set_listeners (listeners el ++ added) el
    ∧ (fresh_for 0 (listeners el) → added = hostBindings)
    ∧ listeners (virtualInputElement d) = inputBindings
    ∧ elementEventsRemover d = getElementEventsDictionary
    ∧ virtualInputElementEventsRemover d = getVirtualInputElementEventsDictionary.
Proof.
  intros Hel Hd.
  destruct (constructor_result (Some cfg) el Hel)
    as (d0 & added & Hd0 & Hhost & Hexact & Hr1 & Hr2 & Hinput & _).
  rewrite Hd0 in Hd. injection Hd as <-.
  exists added. rewrite Hinput. done.
Qed.

Lemma constructor_wires_the_elements_witness :
  ∃ added,
    element sampleInstance = set_listeners (listeners sampleHost ++ added) sampleHost
    ∧ added = hostBindings
    ∧ listeners (virtualInputElement sampleInstance) = inputBindings
    ∧ elementEventsRemover sampleInstance = getElementEventsDictionary
    ∧ virtualInputElementEventsRemover sampleInstance
      = getVirtualInputElementEventsDictionary.
Proof.
  destruct (constructor_wires_the_elements (Settings.only sampleHost) sampleHost
              sampleInstance eq_refl eq_refl)
    as (added & Hhost & Hexact & Hinput & Hr1 & Hr2).
  exists added. split; [exact Hhost|]. split; [|done].
  apply Hexact. constructor.
Defined.
